(** * Verification of the command execution and user record layer of sf-sanctuary-cli

    Shallow embedding of [src/src/utils/sf_command_executor.py]
    ([_run_sf_command]), [src/src/models/user_model.py] ([UserRole], [User])
    and [src/src/managers/user_manager.py] ([UserManager]).

    Python values produced by [json.loads] are modelled by [Json]; the
    exceptions the code can raise by [PyExn]; a method of [UserManager] is a
    computation in a small state and exception monad [M] whose state is the
    list of shell command lines issued so far.  The outside world (the shell
    running [sf]) and the JSON decoder are parameters of the section
    [Runtime]. *)

From Stdlib Require Import String Ascii ZArith List Bool.
From Stdlib Require Import DecimalString.
From Stdlib Require Import Sorted Permutation Lia.
From Stdlib Require Orders Mergesort.
Import ListNotations.

Open Scope string_scope.

(** ** Python values decoded from JSON *)

Set Warnings "-register-all".

(** A JSON document after [json.loads]: [None], [bool], [int], [str],
    [list] and [dict] (a dict as its list of key/value pairs, in order). *)
Inductive Json : Type :=
| JNull : Json
| JBool : bool -> Json
| JNum : Z -> Json
| JStr : string -> Json
| JArr : list Json -> Json
| JObj : list (string * Json) -> Json.

(** Exceptions raised by the modelled code. *)
Inductive PyExn : Type :=
| ClickException : Json -> PyExn
| AttributeError : string -> string -> PyExn
| KeyError : Json -> PyExn
| IndexError : PyExn
| TypeError : string -> PyExn.

(** Outcome of a Python expression: a value or a raised exception. *)
Inductive Result (A : Type) : Type :=
| Ok : A -> Result A
| Raise : PyExn -> Result A.
Arguments Ok {A} _.
Arguments Raise {A} _.

Definition rbind {A B} (r : Result A) (k : A -> Result B) : Result B :=
  match r with
  | Ok a => k a
  | Raise e => Raise e
  end.

Definition type_name (x : Json) : string :=
  match x with
  | JNull => "NoneType"
  | JBool _ => "bool"
  | JNum _ => "int"
  | JStr _ => "str"
  | JArr _ => "list"
  | JObj _ => "dict"
  end.

(** Truth value of a Python object ([if x:], [not x]). *)
Definition py_truthy (x : Json) : bool :=
  match x with
  | JNull => false
  | JBool b => b
  | JNum z => negb (z =? 0)%Z
  | JStr s => negb (String.eqb s "")
  | JArr l => match l with [] => false | _ => true end
  | JObj kvs => match kvs with [] => false | _ => true end
  end.

Fixpoint dict_lookup (k : string) (kvs : list (string * Json)) : option Json :=
  match kvs with
  | [] => None
  | (k', v) :: rest => if String.eqb k k' then Some v else dict_lookup k rest
  end.

(** [x.get(k, d)]: only a dict has a [get] method. *)
Definition py_get (x : Json) (k : string) (d : Json) : Result Json :=
  match x with
  | JObj kvs =>
      match dict_lookup k kvs with
      | Some v => Ok v
      | None => Ok d
      end
  | _ => Raise (AttributeError (type_name x) "get")
  end.

(** [x[k]] for a string key [k]. *)
Definition py_subscript (x : Json) (k : string) : Result Json :=
  match x with
  | JObj kvs =>
      match dict_lookup k kvs with
      | Some v => Ok v
      | None => Raise (KeyError (JStr k))
      end
  | _ => Raise (TypeError (type_name x))
  end.

(** [x[0]]. *)
Definition py_index0 (x : Json) : Result Json :=
  match x with
  | JArr (v :: _) => Ok v
  | JArr [] => Raise IndexError
  | JObj _ => Raise (KeyError (JNum 0))  (* decoded dict keys are strings *)
  | JStr (String c _) => Ok (JStr (String c EmptyString))
  | JStr EmptyString => Raise IndexError
  | _ => Raise (TypeError (type_name x))
  end.

(** [x[:5]]. *)
Definition py_slice5 (x : Json) : Result Json :=
  match x with
  | JStr s => Ok (JStr (substring 0 5 s))
  | JArr l => Ok (JArr (firstn 5 l))
  | _ => Raise (TypeError (type_name x))
  end.

Fixpoint chars_of (s : string) : list Json :=
  match s with
  | EmptyString => []
  | String c t => JStr (String c EmptyString) :: chars_of t
  end.

(** [for v in x]. *)
Definition py_iter (x : Json) : Result (list Json) :=
  match x with
  | JArr l => Ok l
  | JObj kvs => Ok (map (fun kv => JStr (fst kv)) kvs)
  | JStr s => Ok (chars_of s)
  | _ => Raise (TypeError (type_name x))
  end.

(** Python's substring test [needle in hay] on two strings. *)
Fixpoint str_contains (needle hay : string) : bool :=
  prefix needle hay ||
  match hay with
  | EmptyString => false
  | String _ t => str_contains needle t
  end.

Definition is_str (s : string) (x : Json) : bool :=
  match x with
  | JStr t => String.eqb s t
  | _ => false
  end.

(** [needle in x] for a string [needle]. *)
Definition py_in (needle : string) (x : Json) : Result bool :=
  match x with
  | JStr s => Ok (str_contains needle s)
  | JArr l => Ok (existsb (is_str needle) l)
  | JObj kvs => Ok (existsb (fun kv => String.eqb needle (fst kv)) kvs)
  | _ => Raise (TypeError (type_name x))
  end.

Definition z_to_string (z : Z) : string := NilZero.string_of_int (Z.to_int z).

(** [repr(x)] (string contents are not escaped). *)
Fixpoint py_repr (x : Json) : string :=
  match x with
  | JNull => "None"
  | JBool true => "True"
  | JBool false => "False"
  | JNum z => z_to_string z
  | JStr s => "'" ++ s ++ "'"
  | JArr l =>
      "[" ++ String.concat ", " ((fix go (l : list Json) : list string :=
                             match l with
                             | [] => []
                             | v :: r => py_repr v :: go r
                             end) l) ++ "]"
  | JObj kvs =>
      "{" ++ String.concat ", " ((fix go (l : list (string * Json)) : list string :=
                             match l with
                             | [] => []
                             | (k, v) :: r => ("'" ++ k ++ "': " ++ py_repr v) :: go r
                             end) kvs) ++ "}"
  end.

(** [str(x)], as used by an f-string replacement field. *)
Definition py_str (x : Json) : string :=
  match x with
  | JStr s => s
  | _ => py_repr x
  end.

(** ** The process and the command runner *)

(** A [subprocess.CompletedProcess] captured with [text=True]. *)
Record Proc : Type := mkProc {
  returncode : Z;
  stdout : string;
  stderr : string
}.

(** Computations of [UserManager]: the state is the list of shell command
    lines issued so far, oldest first. *)
Definition M (A : Type) : Type := list string -> Result A * list string.

Definition ret {A} (a : A) : M A := fun st => (Ok a, st).

Definition bind {A B} (m : M A) (k : A -> M B) : M B :=
  fun st =>
    match m st with
    | (Ok a, st') => k a st'
    | (Raise e, st') => (Raise e, st')
    end.

Definition lift {A} (r : Result A) : M A := fun st => (r, st).

Definition raise {A} (e : PyExn) : M A := fun st => (Raise e, st).

Notation "x <- m ;; k" := (bind m (fun x => k))
  (at level 61, m at next level, right associativity).

Section Runtime.

(** [json.loads]: a decoded value, or the message of a [JSONDecodeError]. *)
Variable json_loads : string -> Json + string.

(** The shell: given the command lines already issued and a new one, the
    completed process. *)
Variable sh : list string -> string -> Proc.

(** The [try] body and [except] clauses of [_run_sf_command] once the process
    has completed ([check=True] raises [CalledProcessError] exactly when the
    return code is not zero). *)
Definition decode_completed (p : Proc) : Result Json :=
  if (returncode p =? 0)%Z then
    match json_loads (stdout p) with
    | inl j => Ok j
    | inr err =>
        Raise (ClickException
                 (JStr ("Error parsing JSON output from Salesforce CLI: " ++ err)))
    end
  else if negb (String.eqb (stderr p) "") then
    match json_loads (stderr p) with
    | inl error_json =>
        rbind (py_get error_json "message" (JStr "Salesforce CLI command failed."))
              (fun m => Raise (ClickException m))
    | inr _ =>
        Raise (ClickException
                 (JStr ("Salesforce CLI command failed with error: " ++ stderr p)))
    end
  else Raise (ClickException (JStr "Salesforce CLI command failed.")).

Definition sf_command_line (command : string) : string :=
  "sf " ++ command ++ " --json".

(** [_run_sf_command(command)]. *)
Definition _run_sf_command (command : string) : M Json :=
  fun st =>
    let line := sf_command_line command in
    (decode_completed (sh st line), app st [line]).

(** ** Data model ([user_model.py]) *)

(** [UserRole]: an enum whose values are Salesforce profile names. *)
Inductive UserRole : Type :=
| STANDARD
| ADMIN
| READ_ONLY.

Definition value (r : UserRole) : string :=
  match r with
  | STANDARD => "Standard User"
  | ADMIN => "System Administrator"
  | READ_ONLY => "Read Only"
  end.

(** [User] (fields of [UserBase] first).  The string fields hold whatever
    Python object they were given ([None] or a [str] from the CLI, any
    decoded JSON value from a query record); [created_date], a [datetime],
    is kept as an optional timestamp. *)
Record User : Type := mkUser {
  username : Json;
  email : Json;
  first_name : Json;
  last_name : Json;
  role : UserRole;
  is_active : Json;
  id : Json;
  created_date : option Z
}.

(** [User(...)] with the dataclass defaults for the omitted fields. *)
Definition new_user (username email first_name last_name : Json)
    (role : UserRole) : User :=
  mkUser username email first_name last_name role (JBool true) JNull None.

Definition set_id (u : User) (v : Json) : User :=
  mkUser (username u) (email u) (first_name u) (last_name u) (role u)
         (is_active u) v (created_date u).

(** ** [UserManager] ([user_manager.py]) *)

Record UserManager : Type := mkUserManager {
  target_org : string
}.

(** [_parse_role(profile_name)] (a static method). *)
Definition _parse_role (profile_name : Json) : Result UserRole :=
  if negb (py_truthy profile_name) then Ok STANDARD
  else rbind (py_in "Administrator" profile_name) (fun adm =>
       if adm then Ok ADMIN
       else rbind (py_in "Read Only" profile_name) (fun ro =>
            if ro then Ok READ_ONLY else Ok STANDARD)).

(** The double quote character. *)
Definition dq : string := String (ascii_of_nat 34) EmptyString.

Definition profile_query (r : UserRole) : string :=
  "SELECT Id FROM Profile WHERE Name = '" ++ value r ++ "'".

Definition query_command (query : string) : string :=
  "data query --query " ++ dq ++ query ++ dq.

(** [_get_profile_id(self, role)]. *)
Definition _get_profile_id (self : UserManager) (r : UserRole) : M Json :=
  result <- _run_sf_command (query_command (profile_query r)) ;;
  res <- lift (py_get result "result" (JObj [])) ;;
  records <- lift (py_get res "records" JNull) ;;
  if negb (py_truthy records) then
    raise (ClickException (JStr ("Profile not found for role: " ++ value r)))
  else
    first <- lift (py_index0 records) ;;
    lift (py_subscript first "Id").

(** The fifth entry of [values] in [create_user]. *)
Definition alias_entry (user : User) : Result string :=
  if py_truthy (username user) then
    rbind (py_slice5 (username user)) (fun a => Ok ("Alias=" ++ py_str a))
  else Ok "".

(** The list [values] of [create_user], given its fifth entry and the
    profile id returned by [_get_profile_id]. *)
Definition values_of (user : User) (alias : string) (profile_id : Json)
    : list string :=
  [ "Username=" ++ py_str (email user);
    "Email=" ++ py_str (email user);
    (if py_truthy (first_name user) then "FirstName=" ++ py_str (first_name user)
     else "");
    "LastName=" ++ py_str (last_name user);
    alias;
    "ProfileId=" ++ py_str profile_id;
    "TimeZoneSidKey=America/New_York";
    "LocaleSidKey=en_US";
    "EmailEncodingKey=UTF-8";
    "LanguageLocaleKey=en_US" ].

(** The generator [value for value in values if value]. *)
Definition keep_truthy (values : list string) : list string :=
  filter (fun v => negb (String.eqb v "")) values.

Definition create_command (fields : list string) : string :=
  "data create record --sobject User --values " ++ dq ++ String.concat " " fields ++ dq.

(** The field list of [create_user] for a given profile id: [values] with
    its empty entries dropped. *)
Definition build_create_fields (user : User) (profile_id : Json)
    : Result (list string) :=
  rbind (alias_entry user) (fun alias =>
    Ok (keep_truthy (values_of user alias profile_id))).

(** [create_user(self, user)]; the entries of [values] are evaluated in
    order, so the slice of the username happens before the profile query. *)
Definition create_user (self : UserManager) (user : User) : M User :=
  alias <- lift (alias_entry user) ;;
  profile_id <- _get_profile_id self (role user) ;;
  result <- _run_sf_command (create_command (keep_truthy (values_of user alias profile_id))) ;;
  res <- lift (py_subscript result "result") ;;
  new_id <- lift (py_subscript res "id") ;;
  ret (set_id user new_id).

Definition users_query (active_only : bool) : string :=
  let where_clause := if active_only then "WHERE IsActive = true" else "" in
  "SELECT Id, Username, Email, FirstName, LastName, Profile.Name, IsActive "
  ++ "FROM User " ++ where_clause ++ " ORDER BY LastName".

(** The body of the [for record in records] loop of [list_users]. *)
Definition record_to_user (record : Json) : Result User :=
  rbind (py_get record "Profile" JNull) (fun prof =>
  rbind (if py_truthy prof then
           rbind (py_get record "Profile" (JObj [])) (fun p => py_get p "Name" JNull)
         else Ok JNull) (fun profile_name =>
  rbind (py_get record "Id" JNull) (fun i =>
  rbind (py_get record "Username" JNull) (fun un =>
  rbind (py_get record "Email" JNull) (fun em =>
  rbind (py_get record "FirstName" JNull) (fun fn =>
  rbind (py_get record "LastName" JNull) (fun ln =>
  rbind (_parse_role profile_name) (fun r =>
  rbind (py_get record "IsActive" (JBool false)) (fun act =>
  Ok (mkUser un em fn ln r act i None)))))))))).

Fixpoint records_to_users (records : list Json) : Result (list User) :=
  match records with
  | [] => Ok []
  | record :: rest =>
      rbind (record_to_user record) (fun u =>
      rbind (records_to_users rest) (fun us => Ok (u :: us)))
  end.

(** [list_users(self, active_only)]. *)
Definition list_users (self : UserManager) (active_only : bool) : M (list User) :=
  result <- _run_sf_command (query_command (users_query active_only)) ;;
  res <- lift (py_get result "result" (JObj [])) ;;
  records <- lift (py_get res "records" (JArr [])) ;;
  items <- lift (py_iter records) ;;
  lift (records_to_users items).

End Runtime.

(** ** [_run_command] ([sf_command_executor.py]) *)

(** The [try] body and [except] clauses of [_run_command] once the process
    has completed. *)
Definition decode_completed_cli (json_loads : string -> Json + string) (p : Proc)
    : Result Json :=
  if (returncode p =? 0)%Z then
    match json_loads (stdout p) with
    | inl j => Ok j
    | inr err =>
        Raise (ClickException
                 (JStr ("Error parsing JSON output from Salesforce CLI: " ++ err)))
    end
  else if negb (String.eqb (stderr p) "") then
    match json_loads (stderr p) with
    | inl error_json =>
        rbind (py_get error_json "message" (JStr "CLI command failed."))
              (fun m => Raise (ClickException m))
    | inr _ =>
        Raise (ClickException (JStr ("CLI command failed with error: " ++ stderr p)))
    end
  else Raise (ClickException (JStr "CLI command failed.")).

(** [_run_command(command)]: the command line is [command] itself. *)
Definition _run_command (json_loads : string -> Json + string)
    (sh : list string -> string -> Proc) (command : string) : M Json :=
  fun st => (decode_completed_cli json_loads (sh st command), app st [command]).

(** ** Role keys of the [create] commands *)

(** [role.name] of a [UserRole] member. *)
Definition name (r : UserRole) : string :=
  match r with
  | STANDARD => "STANDARD"
  | ADMIN => "ADMIN"
  | READ_ONLY => "READ_ONLY"
  end.

(** The members of [UserRole] in definition order ([for role in UserRole]). *)
Definition all_roles : list UserRole := [STANDARD; ADMIN; READ_ONLY].

(** [UserRole[key]]: lookup by member name. *)
Definition role_by_name (key : string) : Result UserRole :=
  if String.eqb key "STANDARD" then Ok STANDARD
  else if String.eqb key "ADMIN" then Ok ADMIN
  else if String.eqb key "READ_ONLY" then Ok READ_ONLY
  else Raise (KeyError (JStr key)).

Definition ascii_upper (c : ascii) : ascii :=
  let n := nat_of_ascii c in
  if Nat.leb 97 n && Nat.leb n 122 then ascii_of_nat (n - 32) else c.

Definition ascii_lower (c : ascii) : ascii :=
  let n := nat_of_ascii c in
  if Nat.leb 65 n && Nat.leb n 90 then ascii_of_nat (n + 32) else c.

Fixpoint map_chars (f : ascii -> ascii) (s : string) : string :=
  match s with
  | EmptyString => EmptyString
  | String c t => String (f c) (map_chars f t)
  end.

(** [s.upper()] and [s.lower()] on ASCII text. *)
Definition str_upper (s : string) : string := map_chars ascii_upper s.
Definition str_lower (s : string) : string := map_chars ascii_lower s.

(** The [--role] choices of [users create] in [users_commands.py]:
    [[role.name.lower() for role in UserRole]]. *)
Definition users_role_choices : list string :=
  map (fun r => str_lower (name r)) all_roles.

(** The [--role] choices of [create] in [sf_users/commands/sf_users_cli.py]. *)
Definition cli_role_choices : list string := ["standard"; "admin"; "readonly"].

(** [CreateUserParams]. *)
Record CreateUserParams : Type := mkCreateUserParams {
  p_email : Json;
  p_last_name : Json;
  p_first_name : Json;
  p_phone : Json;
  p_title : Json;
  p_department : Json;
  p_company : Json;
  p_role : string;
  p_username : Json
}.

(** Python's [a or b]. *)
Definition py_or (a b : Json) : Json := if py_truthy a then a else b.

(** The [User] built by [create] in [users_commands.py]. *)
Definition user_of_params (params : CreateUserParams) : Result User :=
  rbind (role_by_name (str_upper (p_role params))) (fun user_role =>
    Ok (new_user (py_or (p_username params) (p_email params)) (p_email params)
                 (p_first_name params) (p_last_name params) user_role)).

(** [create] in [users_commands.py], once the options are collected into [CreateUserParams]. *)
Definition users_create (json_loads : string -> Json + string)
    (sh : list string -> string -> Proc) (manager : UserManager)
    (params : CreateUserParams) : M User :=
  user <- lift (user_of_params params) ;;
  create_user json_loads sh manager user.

(** ** JQL of the QA commands ([qa_management_commands.py]) *)

Definition opt_truthy (o : option string) : bool :=
  match o with
  | Some s => negb (String.eqb s "")
  | None => false
  end.

Definition opt_str (o : option string) : string :=
  match o with Some s => s | None => "None" end.

(** [build_jql(project_key, sprint_name, status, assignee)]. *)
Definition build_jql (project_key : string)
    (sprint_name status assignee : option string) : string :=
  let jql_parts := ["project = " ++ dq ++ project_key ++ dq] in
  let jql_parts := if opt_truthy sprint_name
                   then app jql_parts ["sprint = " ++ dq ++ opt_str sprint_name ++ dq]
                   else jql_parts in
  let jql_parts := if opt_truthy status
                   then app jql_parts ["status = " ++ dq ++ opt_str status ++ dq]
                   else jql_parts in
  let jql_parts := if opt_truthy assignee
                   then app jql_parts ["assignee = " ++ dq ++ opt_str assignee ++ dq]
                   else jql_parts in
  String.concat " AND " jql_parts.

(** The JQL built inline by [get_sprint_issues]. *)
Definition sprint_jql (project_key sprint_name : string) (status : option string)
    : string :=
  let jql_parts := ["project = " ++ dq ++ project_key ++ dq;
                    "sprint = " ++ dq ++ sprint_name ++ dq] in
  let jql_parts := if opt_truthy status
                   then app jql_parts ["status = " ++ dq ++ opt_str status ++ dq]
                   else jql_parts in
  String.concat " AND " jql_parts.

(** ** Field lists, issue data and tables of the QA commands *)

(** Python's [str.isspace] on an ASCII character. *)
Definition is_py_space (c : ascii) : bool :=
  let n := nat_of_ascii c in
  (Nat.leb 9 n && Nat.leb n 13) || (Nat.leb 28 n && Nat.leb n 32).

Fixpoint lstrip (s : string) : string :=
  match s with
  | EmptyString => EmptyString
  | String c t => if is_py_space c then lstrip t else s
  end.

Fixpoint rstrip (s : string) : string :=
  match s with
  | EmptyString => EmptyString
  | String c t =>
      let t' := rstrip t in
      if String.eqb t' "" && is_py_space c then EmptyString else String c t'
  end.

(** [s.strip()]. *)
Definition py_strip (s : string) : string := rstrip (lstrip s).

(** [s.split(sep)] for a one-character separator. *)
Fixpoint split_on (sep : ascii) (s : string) : list string :=
  match s with
  | EmptyString => [EmptyString]
  | String c t =>
      match split_on sep t with
      | [] => []
      | w :: ws => if Ascii.eqb c sep then EmptyString :: w :: ws else String c w :: ws
      end
  end.


(** [field_list] of [get_project_issues]: the stripped comma-separated
    fields, with ["status"] appended when it is missing and an assignee is
    given. *)
Definition field_list (fields : string) (assignee : option string) : list string :=
  let fl := map py_strip (split_on ","%char fields) in
  if negb (existsb (String.eqb "status") fl) && opt_truthy assignee
  then app fl ["status"] else fl.

(** Objects of the Jira client: [None], a [str], an [int], or a resource
    whose attributes are looked up by name. *)
Inductive Obj : Type :=
| ONone : Obj
| OStr : string -> Obj
| OInt : Z -> Obj
| OAttrs : list (string * Obj) -> Obj.

(** Truth value of an object; a resource defines neither [__bool__] nor
    [__len__]. *)
Definition obj_truthy (o : Obj) : bool :=
  match o with
  | ONone => false
  | OStr s => negb (String.eqb s "")
  | OInt z => negb (z =? 0)%Z
  | OAttrs _ => true
  end.

Definition obj_type (o : Obj) : string :=
  match o with
  | ONone => "NoneType"
  | OStr _ => "str"
  | OInt _ => "int"
  | OAttrs _ => "object"
  end.

Fixpoint assoc {V : Type} (k : string) (kvs : list (string * V)) : option V :=
  match kvs with
  | [] => None
  | (k', v) :: rest => if String.eqb k k' then Some v else assoc k rest
  end.

(** [d[k] = v] on a dict: an existing key keeps its position. *)
Fixpoint dict_set {V : Type} (k : string) (v : V) (kvs : list (string * V))
    : list (string * V) :=
  match kvs with
  | [] => [(k, v)]
  | (k', v') :: rest =>
      if String.eqb k k' then (k', v) :: rest else (k', v') :: dict_set k v rest
  end.

(** The attribute [a] of [o], if it has one (the data attributes read by the
    QA commands belong to resources only). *)
Definition getattr_opt (o : Obj) (a : string) : option Obj :=
  match o with
  | OAttrs kvs => assoc a kvs
  | _ => None
  end.

(** [getattr(o, a)] and [o.a]. *)
Definition getattr (o : Obj) (a : string) : Result Obj :=
  match getattr_opt o a with
  | Some v => Ok v
  | None => Raise (AttributeError (obj_type o) a)
  end.

(** [getattr(o, a, d)]. *)
Definition getattr_d (o : Obj) (a : string) (d : Obj) : Obj :=
  match getattr_opt o a with
  | Some v => v
  | None => d
  end.

(** [f'customfield_{field.lower().replace(" ", "_")}'] *)
Definition customfield_name (field : string) : string :=
  "customfield_" ++ map_chars (fun c => if Ascii.eqb c " "%char then "_"%char else c)
                              (str_lower field).

(** One iteration of the loop of [extract_issue_data]. *)
Definition extract_field (fields_data : Obj) (data : list (string * Obj))
    (field : string) : Result (list (string * Obj)) :=
  if String.eqb field "summary" then
    Ok (dict_set "summary" (getattr_d fields_data "summary" (OStr "-")) data)
  else if String.eqb field "status" then
    rbind (getattr fields_data "status") (fun st =>
      Ok (dict_set "status" (getattr_d st "name" (OStr "-")) data))
  else if String.eqb field "assignee" then
    rbind (getattr fields_data "assignee") (fun a =>
      Ok (dict_set "assignee"
            (if obj_truthy a then getattr_d a "displayName" (OStr "-") else OStr "-")
            data))
  else
    match getattr_opt fields_data field with
    | Some v => Ok (dict_set field v data)
    | None => Ok (dict_set field (getattr_d fields_data (customfield_name field) (OStr "-"))
                           data)
    end.

(** [extract_issue_data(issue, field_list)]. *)
Definition extract_issue_data (issue : Obj) (field_list : list string)
    : Result (list (string * Obj)) :=
  rbind (getattr issue "key") (fun k =>
  rbind (getattr issue "fields") (fun fields_data =>
  fold_left (fun acc f => rbind acc (fun data => extract_field fields_data data f))
            field_list (Ok [("key", k)]))).

(** [status_counts[k] = status_counts.get(k, 0) + 1]; [eqb] is the key
    comparison of the dict (equal hashes and [==]), the stored key is kept. *)
Fixpoint counter_add (eqb : Obj -> Obj -> bool) (k : Obj) (counts : list (Obj * Z))
    : list (Obj * Z) :=
  match counts with
  | [] => [(k, 1%Z)]
  | (k', n) :: rest =>
      if eqb k' k then (k', (n + 1)%Z) :: rest else (k', n) :: counter_add eqb k rest
  end.

Definition get_or {V : Type} (k : string) (d : V) (kvs : list (string * V)) : V :=
  match assoc k kvs with Some v => v | None => d end.

(** The [status_counts] loop of [get_project_issues]. *)
Definition status_counts (eqb : Obj -> Obj -> bool)
    (extracted_data : list (list (string * Obj))) : list (Obj * Z) :=
  fold_left (fun acc issue_data => counter_add eqb (get_or "status" (OStr "-") issue_data) acc)
            extracted_data [].

Definition summary_data (counts : list (Obj * Z)) : list (list (string * Obj)) :=
  map (fun kv => [("Status", fst kv); ("Count", OInt (snd kv))]) counts.

(** What a table printer writes: a message, or a table (title, column
    headers with their colour markup, rows of cells). *)
Inductive Printed : Type :=
| PMessage : string -> Printed
| PTable : string -> list string -> list (list string) -> Printed.

Definition colors : list string := ["cyan"; "magenta"; "yellow"; "green"; "blue"; "red"].

(** [f"[{colors[index % len(colors)]}]{header}[/]"] for each header, from
    [index]. *)
Fixpoint color_headers (index : nat) (columns : list string) : list string :=
  match columns with
  | [] => []
  | header :: rest =>
      ("[" ++ nth (Nat.modulo index (List.length colors)) colors "" ++ "]" ++ header ++ "[/]")
      :: color_headers (S index) rest
  end.

(** [print_colored_table(data, columns, title)]; [str_of] is [str] on the
    values of the dicts. *)
Definition print_colored_table {V : Type} (str_of : V -> string)
    (data : list (list (string * V))) (columns : list string) (title : string)
    : Printed :=
  match data with
  | [] => PMessage "No issues to display."
  | _ =>
      PTable title (color_headers 0 columns)
        (map (fun item => map (fun header =>
                match assoc header item with
                | Some v => str_of v
                | None => "N/A"
                end) columns) data)
  end.

Fixpoint map_result {A B : Type} (f : A -> Result B) (l : list A) : Result (list B) :=
  match l with
  | [] => Ok []
  | x :: rest => rbind (f x) (fun y => rbind (map_result f rest) (fun ys => Ok (y :: ys)))
  end.

(** What [get_project_issues] prints once the issues have been fetched
    (the environment check and the search itself are not modelled);
    [str_of] is [str] on the extracted values. *)
Definition project_issues_report (eqb : Obj -> Obj -> bool) (str_of : Obj -> string)
    (project_key fields : string) (assignee : option string) (issues : list Obj)
    : Result (list Printed) :=
  let fl := field_list fields assignee in
  rbind (map_result (fun issue => extract_issue_data issue fl) issues) (fun extracted_data =>
  match extracted_data with
  | [] => Ok [PMessage ("No issues found for project '" ++ project_key ++ "'.")]
  | _ =>
      let t := print_colored_table str_of extracted_data fl
                 ("Issues for '" ++ project_key ++ "'") in
      if opt_truthy assignee then
        Ok [t; print_colored_table str_of (summary_data (status_counts eqb extracted_data))
                 ["Status"; "Count"] ("Summary for '" ++ opt_str assignee ++ "'")]
      else Ok [t]
  end).

(** ** [print_table] ([utils/table.py]) *)

(** [a + b] on two decoded JSON values. *)
Definition py_add (a b : Json) : Result Json :=
  let num x := match x with
               | JBool true => Some 1%Z
               | JBool false => Some 0%Z
               | JNum z => Some z
               | _ => None
               end in
  match a, b with
  | JArr l1, JArr l2 => Ok (JArr (app l1 l2))
  | JStr s1, JStr s2 => Ok (JStr (s1 ++ s2))
  | _, _ =>
      match num a, num b with
      | Some x, Some y => Ok (JNum (x + y))
      | _, _ => Raise (TypeError (type_name a))
      end
  end.

(** [set.add]: a key not yet present goes last. *)
Definition set_add (k : string) (s : list string) : list string :=
  if existsb (String.eqb k) s then s else app s [k].

(** The [headers] set of [print_table]: [headers.update(org.keys())] for
    each org. *)
Fixpoint collect_keys (headers : list string) (orgs : list Json) : Result (list string) :=
  match orgs with
  | [] => Ok headers
  | JObj kvs :: rest => collect_keys (fold_left (fun h kv => set_add (fst kv) h) kvs headers) rest
  | org :: _ => Raise (AttributeError (type_name org) "keys")
  end.

Module StrOrder <: Orders.TotalLeBool.
Definition t := string.
Definition leb := String.leb.
Lemma leb_total : forall a1 a2, leb a1 a2 = true \/ leb a2 a1 = true.
Proof. exact String.leb_total. Qed.
End StrOrder.

(** [sorted(...)] on strings (code point order, which is the byte order of
    their UTF-8 encoding). *)
Module StrSort := Mergesort.Sort StrOrder.

(** [print_table(data, columns)]. *)
Definition print_table (data : Json) (columns : option (list string)) : Result Printed :=
  rbind (py_get data "result" (JObj [])) (fun results =>
  rbind (py_get results "other" (JArr [])) (fun other_orgs =>
  rbind (py_get results "nonScratchOrgs" (JArr [])) (fun non_scratch_orgs =>
  rbind (py_add other_orgs non_scratch_orgs) (fun all_orgs =>
  if negb (py_truthy all_orgs) then Ok (PMessage "No organization details found.")
  else
    rbind (py_iter all_orgs) (fun orgs =>
    rbind (match columns with
           | Some cs => Ok cs
           | None => rbind (collect_keys [] orgs) (fun headers => Ok (StrSort.sort headers))
           end) (fun cols =>
    rbind (map_result (fun org =>
             map_result (fun header =>
               rbind (py_get org header (JStr "N/A")) (fun v => Ok (py_str v))) cols) orgs)
      (fun rows => Ok (PTable "Salesforce Organizations" (color_headers 0 cols) rows)))))))).

(** ** The commands of [salesforce_commands.py] (their console messages
    are not modelled) *)


(** The [if result.get(...)] checks after a successful run; a truthy value
    is then read again with [result[...]]. *)
Definition read_result_and_warnings (result : Json) : M unit :=
  r <- lift (py_get result "result" JNull) ;;
  _ <- (if py_truthy r then lift (py_subscript result "result") else ret JNull) ;;
  w <- lift (py_get result "warnings" JNull) ;;
  _ <- (if py_truthy w then lift (py_subscript result "warnings") else ret JNull) ;;
  ret tt.


(** [org(output_format)]. *)
Definition org (json_loads : string -> Json + string)
    (sh : list string -> string -> Proc) : M Printed :=
  result <- _run_sf_command json_loads sh "org list" ;;
  lift (print_table result (Some ["alias"; "username"; "instanceUrl"])).

(** [logout(alias)], with the same handlers omitted as in [login]. *)
Definition logout (json_loads : string -> Json + string)
    (sh : list string -> string -> Proc) (alias : string) : M unit :=
  result <- _run_sf_command json_loads sh ("org logout --target-org " ++ alias ++ " --no-prompt") ;;
  read_result_and_warnings result.

(** ** [users list] *)

(** The Name cell of a row: [f"{user.first_name or ''} {user.last_name or ''}".strip()]. *)
Definition display_name (u : User) : string :=
  py_strip (py_str (py_or (first_name u) (JStr "")) ++ " " ++
            py_str (py_or (last_name u) (JStr ""))).

(** ** [UserManager._run_sf_command] of [sf_users/commands/sf_users_cli.py] *)




(** ** A decoder for concrete runs

    [mini_loads] decodes the JSON subset used by the concrete runs below
    (objects, arrays, strings without escapes, non-negative integers,
    [true], [false], [null]); it stands for [json.loads] when a theorem
    about [_run_sf_command] is applied to a concrete process. *)

Definition is_ws (c : ascii) : bool :=
  match nat_of_ascii c with
  | 32 | 9 | 10 | 13 => true
  | _ => false
  end.

Fixpoint skip_ws (s : string) : string :=
  match s with
  | String c t => if is_ws c then skip_ws t else s
  | EmptyString => s
  end.

Definition is_digit (c : ascii) : bool :=
  let n := nat_of_ascii c in Nat.leb 48 n && Nat.leb n 57.

(** Characters of a string literal up to its closing quote. *)
Fixpoint lex_string (s : string) : option (string * string) :=
  match s with
  | EmptyString => None
  | String c t =>
      if Nat.eqb (nat_of_ascii c) 34 then Some (EmptyString, t)
      else if Nat.eqb (nat_of_ascii c) 92 then None
      else match lex_string t with
           | Some (body, rest) => Some (String c body, rest)
           | None => None
           end
  end.

Fixpoint lex_digits (acc : Z) (s : string) : Z * string :=
  match s with
  | String c t =>
      if is_digit c then lex_digits (acc * 10 + Z.of_nat (nat_of_ascii c - 48)) t
      else (acc, s)
  | EmptyString => (acc, s)
  end.

Fixpoint parse_value (fuel : nat) (s : string) : option (Json * string) :=
  match fuel with
  | O => None
  | S f =>
      match skip_ws s with
      | String "{" t =>
          match skip_ws t with
          | String "}" r => Some (JObj [], r)
          | _ => match parse_members f t with
                 | Some (kvs, r) => Some (JObj kvs, r)
                 | None => None
                 end
          end
      | String "[" t =>
          match skip_ws t with
          | String "]" r => Some (JArr [], r)
          | _ => match parse_elements f t with
                 | Some (l, r) => Some (JArr l, r)
                 | None => None
                 end
          end
      | String c t =>
          if Nat.eqb (nat_of_ascii c) 34 then
            match lex_string t with
            | Some (body, r) => Some (JStr body, r)
            | None => None
            end
          else if is_digit c then
            let (z, r) := lex_digits 0 (String c t) in Some (JNum z, r)
          else if prefix "null" (String c t) then
            Some (JNull, substring 4 (String.length t - 3) (String c t))
          else if prefix "true" (String c t) then
            Some (JBool true, substring 4 (String.length t - 3) (String c t))
          else if prefix "false" (String c t) then
            Some (JBool false, substring 5 (String.length t - 4) (String c t))
          else None
      | EmptyString => None
      end
  end
with parse_members (fuel : nat) (s : string)
    : option (list (string * Json) * string) :=
  match fuel with
  | O => None
  | S f =>
      match skip_ws s with
      | String c t =>
          if Nat.eqb (nat_of_ascii c) 34 then
            match lex_string t with
            | Some (k, r) =>
                match skip_ws r with
                | String ":" r' =>
                    match parse_value f r' with
                    | Some (v, r'') =>
                        match skip_ws r'' with
                        | String "," r3 =>
                            match parse_members f r3 with
                            | Some (kvs, r4) => Some ((k, v) :: kvs, r4)
                            | None => None
                            end
                        | String "}" r3 => Some ([(k, v)], r3)
                        | _ => None
                        end
                    | None => None
                    end
                | _ => None
                end
            | None => None
            end
          else None
      | EmptyString => None
      end
  end
with parse_elements (fuel : nat) (s : string) : option (list Json * string) :=
  match fuel with
  | O => None
  | S f =>
      match parse_value f s with
      | Some (v, r) =>
          match skip_ws r with
          | String "," r' =>
              match parse_elements f r' with
              | Some (l, r'') => Some (v :: l, r'')
              | None => None
              end
          | String "]" r' => Some ([v], r')
          | _ => None
          end
      | None => None
      end
  end.

Definition mini_loads (s : string) : Json + string :=
  match parse_value (S (String.length s)) s with
  | Some (j, rest) =>
      match skip_ws rest with
      | EmptyString => inl j
      | _ => inr "Extra data"
      end
  | None => inr "Expecting value"
  end.

(** Text of a JSON string literal. *)
Definition jq (s : string) : string := dq ++ s ++ dq.

(** Outputs of [sf] used by the concrete runs. *)
Definition created_doc : string :=
  "{" ++ jq "status" ++ ":0," ++ jq "result" ++ ":{" ++ jq "id" ++ ":" ++ jq "U1" ++ "}}".

Definition bare_created_doc : string :=
  "{" ++ jq "result" ++ ":{" ++ jq "id" ++ ":" ++ jq "U1" ++ "}}".

Definition profile_doc : string :=
  "{" ++ jq "result" ++ ":{" ++ jq "totalSize" ++ ":1," ++ jq "records" ++ ":[{"
  ++ jq "Id" ++ ":" ++ jq "00e5g000000ABCD" ++ "}]}}".

Definition no_records_doc : string :=
  "{" ++ jq "result" ++ ":{" ++ jq "totalSize" ++ ":0," ++ jq "records" ++ ":[]}}".

(** A shell in which every query finds [records] and every other command
    creates the record [U1]. *)
Definition demo_world (records : string) (prev : list string) (line : string) : Proc :=
  if prefix "sf data query" line then mkProc 0 records ""
  else mkProc 0 created_doc "".

(** A shell in which every command fails with exit code 1 and [err] on
    standard error. *)
Definition failing_world (err : string) (prev : list string) (line : string) : Proc :=
  mkProc 1 "" err.

Definition demo_user : User :=
  new_user (JStr "jdoe@example.com") (JStr "jdoe@example.com") (JStr "Jane")
           (JStr "Doe") ADMIN.

(** An issue of the concrete runs, with its fields object. *)
Definition demo_fields : Obj :=
  OAttrs [("summary", OStr "Login fails"); ("status", OAttrs [("name", OStr "To Do")]);
          ("assignee", OAttrs [("displayName", OStr "Jane Doe")])].

Definition demo_issue : Obj := OAttrs [("key", OStr "CXP-1"); ("fields", demo_fields)].

(** [==] on the [str] statuses of the concrete runs. *)
Definition str_key_eqb (a b : Obj) : bool :=
  match a, b with
  | OStr x, OStr y => String.eqb x y
  | _, _ => false
  end.

(** [str] on the values of the concrete runs (strings and ints). *)
Definition obj_str (o : Obj) : string :=
  match o with
  | ONone => "None"
  | OStr s => s
  | OInt z => z_to_string z
  | OAttrs _ => ""
  end.

Definition org_list_doc : string :=
  "{" ++ jq "result" ++ ":{" ++ jq "nonScratchOrgs" ++ ":[{" ++ jq "alias" ++ ":" ++ jq "dev"
  ++ "," ++ jq "username" ++ ":" ++ jq "a@b.com" ++ "}]}}".

Definition null_records_doc : string :=
  "{" ++ jq "result" ++ ":{" ++ jq "records" ++ ":null}}".

(** Sum of the counts of a status summary. *)
Definition total (counts : list (Obj * Z)) : Z := fold_right Z.add 0%Z (map snd counts).

(** The keys of a partly built issue dict, after the fields [seen]. *)
Definition keys_inv (data : list (string * Obj)) (seen : list string) : Prop :=
  NoDup (map fst data) /\ hd_error (map fst data) = Some "key" /\
  (forall k, In k (map fst data) <-> k = "key" \/ In k seen).

(** ** Properties *)

Lemma substring_0_short (u : string) (m : nat) :
  String.length u <= m -> substring 0 m u = u.
Proof.
  revert m; induction u as [|c u IH]; intros m Hm.
  - destruct m; reflexivity.
  - destruct m as [|m]; simpl in Hm; [inversion Hm|].
    simpl; f_equal; apply IH.
    apply le_S_n; exact Hm.
Qed.

Lemma prefix_empty (s : string) : prefix "" s = true.
Proof. destruct s; reflexivity. Qed.

Lemma py_truthy_str (u : string) : py_truthy (JStr u) = true <-> u <> "".
Proof.
  simpl; destruct (String.eqb_spec u ""); simpl; split; congruence.
Qed.

Lemma not_in_keep_truthy (l : list string) : ~ In "" (keep_truthy l).
Proof.
  unfold keep_truthy; rewrite filter_In; simpl; intros [_ H]; discriminate.
Qed.

Lemma alias_entry_shape (user : User) (a : string) :
  alias_entry user = Ok a ->
  a = "" \/ exists v, a = "Alias=" ++ v.
Proof.
  unfold alias_entry; destruct (py_truthy (username user)).
  - destruct (py_slice5 (username user)) as [x|e]; simpl; intros H;
      inversion H; eauto.
  - intros H; inversion H; auto.
Qed.

(** Unfold the field list and decide the comparisons between its entries. *)
Ltac fields_simpl :=
  unfold build_create_fields, keep_truthy, values_of; simpl.

(** C5. The profile name of every role classifies back to that role, and a
    profile name containing neither "Administrator" nor "Read Only", as well
    as an absent ([None]) profile name, classifies as [STANDARD]. *)
Theorem parse_role_round_trip_and_default :
  (forall r : UserRole, _parse_role (JStr (value r)) = Ok r) /\
  (forall s : string,
     str_contains "Administrator" s = false ->
     str_contains "Read Only" s = false ->
     _parse_role (JStr s) = Ok STANDARD) /\
  _parse_role JNull = Ok STANDARD.
Proof.
  split; [|split].
  - intros []; reflexivity.
  - intros s Ha Hr; unfold _parse_role; simpl.
    destruct (String.eqb s ""); simpl; [reflexivity|].
    rewrite Ha, Hr; reflexivity.
  - reflexivity.
Qed.

(** C9. A profile name containing both "Administrator" and "Read Only" is
    classified as [ADMIN]: the administrator test comes first. *)
Theorem parse_role_admin_precedence (s : string) :
  str_contains "Administrator" s = true ->
  str_contains "Read Only" s = true ->
  _parse_role (JStr s) = Ok ADMIN.
Proof.
  intros Ha _; unfold _parse_role; simpl.
  destruct (String.eqb_spec s ""); simpl.
  - subst; discriminate.
  - rewrite Ha; reflexivity.
Qed.

(** C4. For a present (non-empty) string username [u], the field list has
    exactly one Alias entry, [Alias=] followed by the first five characters
    of [u], which are [u] itself when [u] has at most five characters; for
    an absent ([None]) or empty username it has no Alias entry. *)
Theorem create_fields_alias (user : User) (profile_id : Json) :
  (forall u, username user = JStr u -> u <> "" ->
     (exists fs, build_create_fields user profile_id = Ok fs /\
        filter (prefix "Alias=") fs = ["Alias=" ++ substring 0 5 u]) /\
     (String.length u <= 5 -> substring 0 5 u = u)) /\
  (username user = JNull \/ username user = JStr "" ->
     exists fs, build_create_fields user profile_id = Ok fs /\
       filter (prefix "Alias=") fs = []).
Proof.
  split.
  - intros u Hu Hne; split; [|apply substring_0_short].
    assert (E : String.eqb u "" = false) by (apply String.eqb_neq; exact Hne).
    unfold build_create_fields, alias_entry; rewrite Hu; simpl; rewrite E; simpl.
    eexists; split; [reflexivity|].
    unfold keep_truthy, values_of; simpl.
    destruct (py_truthy (first_name user)); simpl; rewrite prefix_empty; reflexivity.
  - intros Hu; unfold build_create_fields, alias_entry.
    destruct Hu as [Hu|Hu]; rewrite Hu; simpl;
      (eexists; split; [reflexivity|]);
      unfold keep_truthy, values_of; simpl;
      destruct (py_truthy (first_name user)); simpl; reflexivity.
Qed.

(** C6 (as amended). The field list never contains an empty entry, and it
    has a [FirstName=] entry exactly when the first name is truthy
    (for a string: non-empty). *)
Theorem create_fields_no_empty_entry (user : User) (profile_id : Json)
    (fs : list string) :
  build_create_fields user profile_id = Ok fs ->
  ~ In "" fs /\
  existsb (prefix "FirstName=") fs = py_truthy (first_name user).
Proof.
  unfold build_create_fields, rbind.
  destruct (alias_entry user) as [a|e] eqn:Ha; intros H; [|discriminate H].
  assert (Hfs : fs = keep_truthy (values_of user a profile_id)) by congruence.
  subst fs.
  split; [apply not_in_keep_truthy|].
  destruct (alias_entry_shape _ _ Ha) as [->|[v ->]];
    unfold keep_truthy, values_of; simpl;
    destruct (py_truthy (first_name user)); simpl;
    repeat rewrite prefix_empty; reflexivity.
Qed.

(** C6, counterexample: with an empty last name the field list holds the
    empty-valued field [LastName=]. *)
Lemma create_fields_empty_last_name :
  exists fs,
    build_create_fields
      (new_user (JStr "jdoe@x.com") (JStr "jdoe@x.com") JNull (JStr "") STANDARD)
      (JStr "00e000000000001") = Ok fs /\
    In "LastName=" fs.
Proof.
  eexists; split; [reflexivity|].
  simpl; tauto.
Qed.

Section Effects.

Variable json_loads : string -> Json + string.
Variable sh : list string -> string -> Proc.

(** Every run of [_run_sf_command] issues exactly its command line. *)
Lemma run_sf_command_state (command : string) (st : list string) :
  snd (_run_sf_command json_loads sh command st) = app st [sf_command_line command].
Proof. reflexivity. Qed.


(** C1 (as amended). When the process exits with code zero,
    [_run_sf_command] returns the whole decoded standard output, unchanged,
    whatever its keys; when standard output is not JSON it raises the
    [ClickException] "Error parsing JSON output from Salesforce CLI: ...".
    In both cases exactly the command line [sf <command> --json] was issued. *)
Theorem run_sf_command_exit_zero (command : string) (st : list string) :
  returncode (sh st (sf_command_line command)) = 0%Z ->
  _run_sf_command json_loads sh command st =
    (match json_loads (stdout (sh st (sf_command_line command))) with
     | inl doc => Ok doc
     | inr err =>
         Raise (ClickException
                  (JStr ("Error parsing JSON output from Salesforce CLI: " ++ err)))
     end,
     app st [sf_command_line command]).
Proof.
  intros H0; unfold _run_sf_command, decode_completed; simpl.
  rewrite H0; reflexivity.
Qed.

(** C3. The profile query for [r] raises [ClickException] "Profile not found
    for role: <profile name of r>" when the decoded [result] has no
    [records] (absent or [null]) or an empty [records] list, and otherwise
    returns [records[0]["Id"]], the Id of the first record. *)
Theorem get_profile_id_records (self : UserManager) (r : UserRole)
    (st : list string) (doc res : Json) :
  returncode (sh st (sf_command_line (query_command (profile_query r)))) = 0%Z ->
  json_loads (stdout (sh st (sf_command_line (query_command (profile_query r)))))
    = inl doc ->
  py_get doc "result" (JObj []) = Ok res ->
  ((py_get res "records" JNull = Ok JNull \/
    py_get res "records" JNull = Ok (JArr [])) ->
   fst (_get_profile_id json_loads sh self r st)
   = Raise (ClickException (JStr ("Profile not found for role: " ++ value r)))) /\
  (forall first rest,
     py_get res "records" JNull = Ok (JArr (first :: rest)) ->
     fst (_get_profile_id json_loads sh self r st) = py_subscript first "Id").
Proof.
  intros H0 Hj Hres.
  unfold _get_profile_id, bind, lift, raise.
  rewrite (run_sf_command_exit_zero _ _ H0), Hj, Hres.
  split.
  - intros [Hrec|Hrec]; rewrite Hrec; reflexivity.
  - intros first rest Hrec; rewrite Hrec; simpl.
    destruct (py_subscript first "Id"); reflexivity.
Qed.

(** C7. The user query filters on [IsActive = true] exactly when
    [active_only] is set and always ends with [ORDER BY LastName];
    [list_users] issues exactly that query; and when the decoded result has
    no records (an empty or absent [records] list) it returns the empty
    list. *)
Theorem list_users_query_and_empty (self : UserManager) (active_only : bool)
    (st : list string) (doc res : Json) :
  str_contains "WHERE IsActive = true" (users_query active_only) = active_only /\
  (exists pre, users_query active_only = pre ++ " ORDER BY LastName") /\
  snd (list_users json_loads sh self active_only st)
    = app st [sf_command_line (query_command (users_query active_only))] /\
  (returncode (sh st (sf_command_line (query_command (users_query active_only))))
     = 0%Z ->
   json_loads (stdout (sh st (sf_command_line (query_command (users_query active_only)))))
     = inl doc ->
   py_get doc "result" (JObj []) = Ok res ->
   py_get res "records" (JArr []) = Ok (JArr []) ->
   fst (list_users json_loads sh self active_only st) = Ok []).
Proof.
  split; [|split; [|split]].
  - destruct active_only; vm_compute; reflexivity.
  - destruct active_only.
    + exists "SELECT Id, Username, Email, FirstName, LastName, Profile.Name, IsActive FROM User WHERE IsActive = true".
      reflexivity.
    + exists "SELECT Id, Username, Email, FirstName, LastName, Profile.Name, IsActive FROM User ".
      reflexivity.
  - unfold list_users, bind, lift, _run_sf_command.
    destruct (decode_completed json_loads
                (sh st (sf_command_line (query_command (users_query active_only)))))
      as [d|e]; simpl; [|reflexivity].
    destruct (py_get d "result" (JObj [])) as [x|e]; simpl; [|reflexivity].
    destruct (py_get x "records" (JArr [])) as [y|e]; simpl; [|reflexivity].
    destruct (py_iter y) as [l|e]; simpl; reflexivity.
  - intros H0 Hj Hres Hrec.
    unfold list_users, bind, lift.
    rewrite (run_sf_command_exit_zero _ _ H0), Hj, Hres, Hrec; reflexivity.
Qed.

(** C10. When [create_user] succeeds, the returned user agrees with the
    input on every field but [id] (username, email, first and last name,
    role, active flag, creation date), and its [id] is [result["id"]] of the
    decoded response of the last command issued, which is the create
    command built from the field list of the user. *)
Theorem create_user_frame (self : UserManager) (user : User) (st : list string)
    (u' : User) (st' : list string) :
  create_user json_loads sh self user st = (Ok u', st') ->
  username u' = username user /\ email u' = email user /\
  first_name u' = first_name user /\ last_name u' = last_name user /\
  role u' = role user /\ is_active u' = is_active user /\
  created_date u' = created_date user /\
  exists st1 profile_id fields doc res,
    build_create_fields user profile_id = Ok fields /\
    st' = app st1 [sf_command_line (create_command fields)] /\
    decode_completed json_loads (sh st1 (sf_command_line (create_command fields)))
      = Ok doc /\
    py_subscript doc "result" = Ok res /\
    py_subscript res "id" = Ok (id u').
Proof.
  unfold create_user, bind, lift, ret.
  destruct (alias_entry user) as [a|e] eqn:Ha; [|discriminate].
  destruct (_get_profile_id json_loads sh self (role user) st)
    as [[pid|e] st1] eqn:Hp; [|discriminate].
  unfold _run_sf_command.
  set (line := sf_command_line (create_command (keep_truthy (values_of user a pid)))).
  destruct (decode_completed json_loads (sh st1 line)) as [doc|e] eqn:Hd;
    [|discriminate].
  destruct (py_subscript doc "result") as [res|e] eqn:Hr; [|discriminate].
  destruct (py_subscript res "id") as [i|e] eqn:Hi; [|discriminate].
  intros H; injection H as <- <-.
  simpl; repeat split.
  exists st1, pid, (keep_truthy (values_of user a pid)), doc, res.
  unfold build_create_fields; rewrite Ha; simpl.
  repeat split; assumption.
Qed.

End Effects.

(** C1, counterexample: for the standard output [{"result":{"id":"U1"}}]
    with exit code zero, [_run_sf_command] returns the whole document, not
    the value of its [result] field, so the returned payload has no [id];
    and a document without any [result] field ([{}]) is returned as well. *)
Lemma run_sf_command_returns_whole_document :
  let out := fst (_run_sf_command mini_loads (fun (_ : list string) (_ : string) => mkProc 0 bare_created_doc "")
                    "data create record --sobject User" []) in
  out = Ok (JObj [("result", JObj [("id", JStr "U1")])]) /\
  out <> Ok (JObj [("id", JStr "U1")]) /\
  rbind out (fun payload => py_subscript payload "id") = Raise (KeyError (JStr "id")) /\
  fst (_run_sf_command mini_loads (fun (_ : list string) (_ : string) => mkProc 0 "{}" "")
         "data create record --sobject User" []) = Ok (JObj []).
Proof.
  cbv zeta; split; [|split; [|split]]; vm_compute; try reflexivity.
  discriminate.
Qed.

(** C1, witness: on [{"result":{"id":"U1"}}] the caller's
    [result["result"]["id"]] is [U1]. *)
Lemma run_sf_command_exit_zero_witness :
  returncode ((fun (_ : list string) (_ : string) => mkProc 0 bare_created_doc "") []
                (sf_command_line "data create record --sobject User")) = 0%Z /\
  rbind (fst (_run_sf_command mini_loads (fun (_ : list string) (_ : string) => mkProc 0 bare_created_doc "")
                "data create record --sobject User" []))
        (fun doc => rbind (py_subscript doc "result") (fun r => py_subscript r "id"))
  = Ok (JStr "U1").
Proof.
  split; [reflexivity|].
  rewrite (run_sf_command_exit_zero mini_loads (fun (_ : list string) (_ : string) => mkProc 0 bare_created_doc "")
             "data create record --sobject User" [] eq_refl).
  reflexivity.
Defined.

(** C2. With exit code 1 and the standard error [42] (valid JSON, but not
    an object), [_run_sf_command] raises [AttributeError] ('int' object has
    no attribute 'get') instead of a [ClickException]. *)
Theorem run_sf_command_stderr_not_object :
  _run_sf_command mini_loads (failing_world "42") "data query --query x" []
  = (Raise (AttributeError "int" "get"), ["sf data query --query x --json"]).
Proof. reflexivity. Qed.

(** C3, witness: with one profile record, the Id of that record. *)
Lemma get_profile_id_records_witness :
  returncode (demo_world profile_doc []
                (sf_command_line (query_command (profile_query ADMIN)))) = 0%Z /\
  fst (_get_profile_id mini_loads (demo_world profile_doc) (mkUserManager "dev") ADMIN [])
  = Ok (JStr "00e5g000000ABCD").
Proof.
  split; [reflexivity|].
  rewrite (proj2 (get_profile_id_records mini_loads (demo_world profile_doc)
                    (mkUserManager "dev") ADMIN []
                    (JObj [("result", JObj [("totalSize", JNum 1);
                       ("records", JArr [JObj [("Id", JStr "00e5g000000ABCD")]])])])
                    (JObj [("totalSize", JNum 1);
                       ("records", JArr [JObj [("Id", JStr "00e5g000000ABCD")]])])
                    eq_refl eq_refl eq_refl)
             (JObj [("Id", JStr "00e5g000000ABCD")]) [] eq_refl).
  reflexivity.
Defined.

(** C4, witness: usernames [ab] and [abcdefg] give the aliases [ab] and
    [abcde]. *)
Lemma create_fields_alias_witness :
  (exists fs,
     build_create_fields (new_user (JStr "ab") (JStr "ab@x.com") JNull (JStr "Doe") STANDARD)
       (JStr "00e") = Ok fs /\ filter (prefix "Alias=") fs = ["Alias=ab"]) /\
  (exists fs,
     build_create_fields (new_user (JStr "abcdefg") (JStr "ab@x.com") JNull (JStr "Doe") STANDARD)
       (JStr "00e") = Ok fs /\ filter (prefix "Alias=") fs = ["Alias=abcde"]).
Proof.
  split.
  - exact (proj1 (proj1 (create_fields_alias
             (new_user (JStr "ab") (JStr "ab@x.com") JNull (JStr "Doe") STANDARD)
             (JStr "00e")) "ab" eq_refl ltac:(discriminate))).
  - exact (proj1 (proj1 (create_fields_alias
             (new_user (JStr "abcdefg") (JStr "ab@x.com") JNull (JStr "Doe") STANDARD)
             (JStr "00e")) "abcdefg" eq_refl ltac:(discriminate))).
Defined.

(** C5, witness: a custom profile name classifies as [STANDARD]. *)
Lemma parse_role_round_trip_and_default_witness :
  _parse_role (JStr "Custom: Marketing") = Ok STANDARD.
Proof.
  apply (proj1 (proj2 parse_role_round_trip_and_default)); reflexivity.
Defined.

(** C6, witness: the field list of [demo_user]. *)
Lemma create_fields_no_empty_entry_witness :
  exists fs,
    build_create_fields demo_user (JStr "00e") = Ok fs /\
    ~ In "" fs /\ existsb (prefix "FirstName=") fs = true.
Proof.
  eexists; split; [reflexivity|].
  apply (create_fields_no_empty_entry demo_user (JStr "00e")); reflexivity.
Defined.

(** C7, witness: an active-only listing with no records. *)
Lemma list_users_query_and_empty_witness :
  fst (list_users mini_loads (demo_world no_records_doc) (mkUserManager "dev") true [])
  = Ok [].
Proof.
  apply (list_users_query_and_empty mini_loads (demo_world no_records_doc)
           (mkUserManager "dev") true []
           (JObj [("result", JObj [("totalSize", JNum 0); ("records", JArr [])])])
           (JObj [("totalSize", JNum 0); ("records", JArr [])]));
    reflexivity.
Defined.

(** C8. The org alias of a [UserManager] plays no part in what it does:
    managers for two different orgs behave identically, and the command a
    manager for the org [my-sandbox] issues to list users neither names that
    org nor passes [--target-org]. *)
Theorem user_manager_ignores_target_org :
  (forall (json_loads : string -> Json + string)
          (sh : list string -> string -> Proc) (o1 o2 : string),
     (forall user st, create_user json_loads sh (mkUserManager o1) user st
                      = create_user json_loads sh (mkUserManager o2) user st) /\
     (forall active_only st,
        list_users json_loads sh (mkUserManager o1) active_only st
        = list_users json_loads sh (mkUserManager o2) active_only st) /\
     (forall r st, _get_profile_id json_loads sh (mkUserManager o1) r st
                   = _get_profile_id json_loads sh (mkUserManager o2) r st)) /\
  snd (list_users mini_loads (demo_world no_records_doc) (mkUserManager "my-sandbox") true [])
    = [sf_command_line (query_command (users_query true))] /\
  str_contains "my-sandbox" (sf_command_line (query_command (users_query true))) = false /\
  str_contains "--target-org" (sf_command_line (query_command (users_query true))) = false.
Proof.
  split; [|split; [|split]].
  - intros json_loads sh o1 o2; repeat split; reflexivity.
  - reflexivity.
  - vm_compute; reflexivity.
  - vm_compute; reflexivity.
Qed.

(** C9, witness. *)
Lemma parse_role_admin_precedence_witness :
  _parse_role (JStr "Read Only Administrator") = Ok ADMIN.
Proof.
  apply parse_role_admin_precedence; reflexivity.
Defined.

(** C10, witness: creating [demo_user] keeps its fields and takes the id
    [U1] of the create response. *)
Lemma create_user_frame_witness :
  exists u' st',
    create_user mini_loads (demo_world profile_doc) (mkUserManager "dev") demo_user []
      = (Ok u', st') /\
    id u' = JStr "U1" /\ email u' = email demo_user.
Proof.
  exists (set_id demo_user (JStr "U1")),
    (snd (create_user mini_loads (demo_world profile_doc) (mkUserManager "dev") demo_user [])).
  assert (H : create_user mini_loads (demo_world profile_doc) (mkUserManager "dev") demo_user []
              = (Ok (set_id demo_user (JStr "U1")),
                 snd (create_user mini_loads (demo_world profile_doc)
                        (mkUserManager "dev") demo_user []))) by reflexivity.
  split; [exact H|].
  destruct (create_user_frame mini_loads (demo_world profile_doc) (mkUserManager "dev")
              demo_user [] _ _ H) as (_ & He & _).
  split; [reflexivity | exact He].
Defined.

(** ** Further properties of the command layer and its callers *)

Lemma prefix_app (x y : string) : prefix x (x ++ y) = true.
Proof.
  induction x as [|c x IH]; simpl.
  - apply prefix_empty.
  - destruct (ascii_dec c c) as [_|n]; [exact IH|contradiction].
Qed.

Lemma str_contains_prefix (x h : string) : prefix x h = true -> str_contains x h = true.
Proof. destruct h; simpl; intros ->; reflexivity. Qed.

Lemma str_contains_app (x a b : string) : str_contains x (a ++ x ++ b) = true.
Proof.
  induction a as [|c a IH]; simpl.
  - apply str_contains_prefix, prefix_app.
  - rewrite IH, orb_true_r; reflexivity.
Qed.

Lemma str_contains_app_eq (x s a b : string) :
  s = a ++ x ++ b -> str_contains x s = true.
Proof. intros ->; apply str_contains_app. Qed.

Lemma concat_cons_prefix (sep x : string) (l : list string) :
  prefix x (String.concat sep (x :: l)) = true.
Proof.
  destruct l; simpl; [|apply prefix_app].
  induction x as [|c x IH]; simpl; [reflexivity|].
  destruct (ascii_dec c c) as [_|n]; [exact IH|contradiction].
Qed.

(** [_run_command] on the line [sf <command> --json] issues the same line
    as [_run_sf_command command], succeeds exactly when it does, with the
    same value; only the text of its [ClickException]s differs. *)
Theorem run_command_agrees_on_success (json_loads : string -> Json + string)
    (sh : list string -> string -> Proc) (command : string) (st : list string)
    (j : Json) :
  snd (_run_command json_loads sh (sf_command_line command) st)
    = snd (_run_sf_command json_loads sh command st) /\
  (fst (_run_command json_loads sh (sf_command_line command) st) = Ok j <->
   fst (_run_sf_command json_loads sh command st) = Ok j).
Proof.
  split; [reflexivity|].
  unfold _run_command, _run_sf_command, decode_completed_cli, decode_completed; simpl.
  destruct (returncode _ =? 0)%Z.
  - destruct (json_loads (stdout _)); split; intros H; exact H || discriminate H.
  - destruct (negb _); [|split; intros H; discriminate H].
    destruct (json_loads (stderr _)) as [ej|e].
    + destruct ej; simpl; try (split; intros H; discriminate H).
      destruct (dict_lookup "message" _); split; intros H; discriminate H.
    + split; intros H; discriminate H.
Qed.


(** Every [--role] choice of [users create] ([users_commands.py]) names a
    member of [UserRole] once upper-cased, and that member's lower-cased
    name is the choice. *)
Theorem users_role_choices_resolve (key : string) :
  In key users_role_choices ->
  exists r, role_by_name (str_upper key) = Ok r /\ str_lower (name r) = key.
Proof.
  simpl; intros [<-|[<-|[<-|[]]]]; eexists; split; reflexivity.
Qed.

(** In [sf_users_cli.py] the [--role] choice [readonly] upper-cases to
    [READONLY], which is not a member name of [UserRole]: building the user
    raises [KeyError] before any command is issued, so that choice can never
    create a user. *)
Theorem cli_readonly_choice_fails (params : CreateUserParams) :
  In "readonly" cli_role_choices /\
  (p_role params = "readonly" ->
   user_of_params params = Raise (KeyError (JStr "READONLY"))).
Proof.
  split; [simpl; tauto|].
  intros H; unfold user_of_params; rewrite H; reflexivity.
Qed.

Lemma str_app_assoc (a b c : string) : (a ++ b) ++ c = a ++ (b ++ c).
Proof. induction a as [|x a IH]; simpl; [reflexivity|rewrite IH; reflexivity]. Qed.

Lemma str_app_nil_r (a : string) : a ++ "" = a.
Proof. induction a as [|x a IH]; simpl; [reflexivity|rewrite IH; reflexivity]. Qed.

Lemma concat_snoc (sep y : string) (l : list string) :
  l <> [] -> String.concat sep (app l [y]) = String.concat sep l ++ sep ++ y.
Proof.
  intros Hl; induction l as [|x l IH]; [contradiction|].
  destruct l as [|x' l]; simpl; [reflexivity|].
  simpl in IH; rewrite IH by discriminate.
  destruct (app l [y]) eqn:E; [destruct l; discriminate|].
  rewrite !str_app_assoc; reflexivity.
Qed.

Lemma alias_of_username (user : User) (u : string) (profile_id : Json) :
  username user = JStr u -> u <> "" ->
  exists fs, build_create_fields user profile_id = Ok fs /\
    filter (prefix "Alias=") fs = ["Alias=" ++ substring 0 5 u].
Proof.
  intros Hu Hne.
  assert (E : String.eqb u "" = false) by (apply String.eqb_neq; exact Hne).
  unfold build_create_fields, alias_entry; rewrite Hu; simpl; rewrite E; simpl.
  eexists; split; [reflexivity|].
  unfold keep_truthy, values_of; simpl.
  destruct (py_truthy (first_name user)); simpl; rewrite prefix_empty; reflexivity.
Qed.

(** [users create] without a (non-empty) [--username] uses the email as
    username, so the Alias field is the first five characters of the
    email. *)
Theorem users_create_alias_from_email (params : CreateUserParams) (e : string)
    (profile_id : Json) :
  py_truthy (p_username params) = false ->
  p_email params = JStr e -> e <> "" ->
  In (p_role params) users_role_choices ->
  exists user fs,
    user_of_params params = Ok user /\ username user = JStr e /\
    build_create_fields user profile_id = Ok fs /\
    filter (prefix "Alias=") fs = ["Alias=" ++ substring 0 5 e].
Proof.
  intros Hu He Hne Hr.
  assert (Hun : forall r, username (new_user (py_or (p_username params) (p_email params))
                  (p_email params) (p_first_name params) (p_last_name params) r) = JStr e)
    by (intros r; simpl; unfold py_or; rewrite Hu; exact He).
  assert (Hall : forall r,
    exists user fs,
      (Ok (new_user (py_or (p_username params) (p_email params)) (p_email params)
            (p_first_name params) (p_last_name params) r) = Ok user) /\
      (username user = JStr e) /\
      (build_create_fields user profile_id = Ok fs) /\
      (filter (prefix "Alias=") fs = ["Alias=" ++ substring 0 5 e])).
  { intros r.
    destruct (alias_of_username (new_user (py_or (p_username params) (p_email params))
                (p_email params) (p_first_name params) (p_last_name params) r)
                e profile_id (Hun r) Hne) as [fs [H1 H2]].
    eexists; exists fs; split; [reflexivity|]; split; [apply Hun|]; split; assumption. }
  unfold user_of_params.
  simpl in Hr; destruct Hr as [Hr|[Hr|[Hr|[]]]]; rewrite <- Hr; apply Hall.
Qed.

(** [build_jql]: an empty-string option adds no clause, exactly as an
    absent one; the JQL always starts with the project clause; and a
    non-empty assignee adds its clause last. *)
Theorem build_jql_clauses (project_key : string) (sprint_name status assignee : option string) :
  build_jql project_key (Some "") status assignee
    = build_jql project_key None status assignee /\
  build_jql project_key sprint_name (Some "") assignee
    = build_jql project_key sprint_name None assignee /\
  build_jql project_key sprint_name status (Some "")
    = build_jql project_key sprint_name status None /\
  prefix ("project = " ++ dq ++ project_key ++ dq)
         (build_jql project_key sprint_name status assignee) = true /\
  (forall a, a <> "" ->
   exists pre, build_jql project_key sprint_name status (Some a)
               = pre ++ " AND assignee = " ++ dq ++ a ++ dq).
Proof.
  split; [reflexivity|split; [reflexivity|split; [reflexivity|split]]].
  - unfold build_jql.
    destruct (opt_truthy sprint_name), (opt_truthy status), (opt_truthy assignee);
      simpl app; apply concat_cons_prefix.
  - intros a Ha.
    assert (E : opt_truthy (Some a) = true)
      by (simpl; apply negb_true_iff, String.eqb_neq; exact Ha).
    unfold build_jql; rewrite E.
    eexists; rewrite concat_snoc
      by (destruct (opt_truthy sprint_name), (opt_truthy status); simpl; discriminate).
    reflexivity.
Qed.

(** [get_sprint_issues] builds its JQL inline; for a non-empty sprint name it
    is the JQL [build_jql] gives for that sprint and status, but for an empty
    sprint name it still holds the clause [sprint = ""], which [build_jql]
    drops. *)
Theorem sprint_jql_vs_build_jql (project_key sprint_name : string)
    (status : option string) :
  (sprint_name <> "" ->
   sprint_jql project_key sprint_name status
   = build_jql project_key (Some sprint_name) status None) /\
  str_contains ("sprint = " ++ dq ++ dq) (sprint_jql project_key "" status) = true.
Proof.
  split.
  - intros Hs.
    assert (E : opt_truthy (Some sprint_name) = true)
      by (simpl; apply negb_true_iff, String.eqb_neq; exact Hs).
    unfold sprint_jql, build_jql; rewrite E; reflexivity.
  - unfold sprint_jql.
    destruct (opt_truthy status).
    + apply (str_contains_app_eq _ _ ("project = " ++ dq ++ project_key ++ dq ++ " AND ")
               (" AND " ++ "status = " ++ dq ++ opt_str status ++ dq)).
      cbn [String.concat app]; rewrite !str_app_assoc; reflexivity.
    + apply (str_contains_app_eq _ _ ("project = " ++ dq ++ project_key ++ dq ++ " AND ") "").
      cbn [String.concat app]; rewrite str_app_nil_r, !str_app_assoc; reflexivity.
Qed.

(** *** Field lists of [get_project_issues] *)


Lemma lstrip_idem (s : string) : lstrip (lstrip s) = lstrip s.
Proof.
  induction s as [|c t IH]; [reflexivity|].
  simpl. destruct (is_py_space c) eqn:E; [exact IH|simpl; rewrite E; reflexivity].
Qed.

Lemma rstrip_idem (s : string) : rstrip (rstrip s) = rstrip s.
Proof.
  induction s as [|c t IH]; [reflexivity|].
  simpl. destruct (String.eqb (rstrip t) "" && is_py_space c) eqn:E; [reflexivity|].
  simpl. rewrite IH, E. reflexivity.
Qed.

Lemma lstrip_length (s : string) : String.length (lstrip s) <= String.length s.
Proof.
  induction s as [|c t IH]; [simpl; lia|].
  simpl. destruct (is_py_space c); simpl; lia.
Qed.

Lemma lstrip_rstrip (s : string) : lstrip s = s -> lstrip (rstrip s) = rstrip s.
Proof.
  destruct s as [|c t]; [reflexivity|].
  simpl. intros H. destruct (is_py_space c) eqn:Ec.
  - exfalso. pose proof (lstrip_length t) as L. rewrite H in L. simpl in L. lia.
  - rewrite andb_false_r. simpl. rewrite Ec. reflexivity.
Qed.

Lemma py_strip_idem (s : string) : py_strip (py_strip s) = py_strip s.
Proof.
  unfold py_strip.
  rewrite (lstrip_rstrip (lstrip s) (lstrip_idem s)), rstrip_idem. reflexivity.
Qed.


(** *** [extract_issue_data] *)

Lemma dict_set_keys {V : Type} (k : string) (v : V) (kvs : list (string * V)) :
  map fst (dict_set k v kvs)
  = if existsb (String.eqb k) (map fst kvs) then map fst kvs else app (map fst kvs) [k].
Proof.
  induction kvs as [|[k' v'] rest IH]; [reflexivity|].
  simpl. destruct (String.eqb k k') eqn:E; simpl; [reflexivity|].
  rewrite IH. destruct (existsb (String.eqb k) (map fst rest)); reflexivity.
Qed.

Lemma assoc_dict_set {V : Type} (k k' : string) (v : V) (kvs : list (string * V)) :
  assoc k (dict_set k' v kvs) = if String.eqb k k' then Some v else assoc k kvs.
Proof.
  induction kvs as [|[k'' v''] rest IH]; simpl.
  - destruct (String.eqb k k'); reflexivity.
  - destruct (String.eqb k' k'') eqn:E1; simpl.
    + apply String.eqb_eq in E1. subst k''.
      destruct (String.eqb k k'); reflexivity.
    + rewrite IH. destruct (String.eqb k k'') eqn:E2; [|reflexivity].
      apply String.eqb_eq in E2. subst k''.
      destruct (String.eqb k k') eqn:E3; [|reflexivity].
      apply String.eqb_eq in E3. subst k'. rewrite String.eqb_refl in E1. discriminate.
Qed.

Lemma extract_field_set (fields_data : Obj) (data data' : list (string * Obj))
    (field : string) :
  extract_field fields_data data field = Ok data' ->
  exists v, data' = dict_set field v data.
Proof.
  unfold extract_field.
  destruct (String.eqb_spec field "summary") as [->|_].
  { intros H; injection H as <-; eexists; reflexivity. }
  destruct (String.eqb_spec field "status") as [->|_].
  { destruct (getattr fields_data "status"); simpl; [|discriminate].
    intros H; injection H as <-; eexists; reflexivity. }
  destruct (String.eqb_spec field "assignee") as [->|_].
  { destruct (getattr fields_data "assignee"); simpl; [|discriminate].
    intros H; injection H as <-; eexists; reflexivity. }
  destruct (getattr_opt fields_data field); intros H; injection H as <-;
    eexists; reflexivity.
Qed.

Lemma fold_extract_raise (fields_data : Obj) (fields : list string) (e : PyExn) :
  fold_left (fun acc f => rbind acc (fun data => extract_field fields_data data f))
            fields (Raise e) = Raise e.
Proof. induction fields as [|f fs IH]; [reflexivity|exact IH]. Qed.

Lemma keys_inv_set (data : list (string * Obj)) (seen : list string) (f : string) (v : Obj) :
  keys_inv data seen -> keys_inv (dict_set f v data) (app seen [f]).
Proof.
  intros [Hnd [Hhd Hin]]. unfold keys_inv. rewrite dict_set_keys.
  destruct (existsb (String.eqb f) (map fst data)) eqn:Ex.
  - apply existsb_exists in Ex. destruct Ex as [x [Hx Hfx]].
    apply String.eqb_eq in Hfx. subst x.
    split; [exact Hnd|split; [exact Hhd|]].
    intros k. rewrite Hin, in_app_iff. simpl.
    split; [tauto|]. intros [H|[H|[H|[]]]]; try tauto. subst k. apply Hin. exact Hx.
  - assert (Hnf : ~ In f (map fst data)).
    { intros Hf. assert (existsb (String.eqb f) (map fst data) = true) as C
        by (apply existsb_exists; exists f; split; [exact Hf|apply String.eqb_refl]).
      congruence. }
    split; [|split].
    + apply NoDup_app; [exact Hnd|constructor; [intros []|constructor]|].
      intros x Hx [Hy|[]]. subst x. contradiction.
    + destruct (map fst data) as [|x xs]; [discriminate|exact Hhd].
    + intros k. rewrite !in_app_iff, Hin. simpl. tauto.
Qed.

Lemma fold_extract_keys (fields_data : Obj) (fields : list string) :
  forall data0 seen data,
  keys_inv data0 seen ->
  fold_left (fun acc f => rbind acc (fun data => extract_field fields_data data f))
            fields (Ok data0) = Ok data ->
  keys_inv data (app seen fields).
Proof.
  induction fields as [|f fs IH]; intros data0 seen data Hinv H.
  - simpl in H. injection H as <-. rewrite app_nil_r. exact Hinv.
  - simpl in H. destruct (extract_field fields_data data0 f) as [d1|e] eqn:E.
    + apply extract_field_set in E. destruct E as [v ->].
      replace (app seen (f :: fs)) with (app (app seen [f]) fs)
        by (rewrite <- app_assoc; reflexivity).
      eapply IH; [apply keys_inv_set; exact Hinv|exact H].
    + rewrite fold_extract_raise in H. discriminate.
Qed.

(** [extract_issue_data] gives a dict whose first key is ["key"] and whose
    keys are exactly ["key"] and the requested fields, each once, however
    often a field is requested. *)
Theorem extract_issue_data_keys (issue : Obj) (fields : list string)
    (data : list (string * Obj)) :
  extract_issue_data issue fields = Ok data ->
  NoDup (map fst data) /\ hd_error (map fst data) = Some "key" /\
  (forall k, In k (map fst data) <-> k = "key" \/ In k fields).
Proof.
  unfold extract_issue_data.
  destruct (getattr issue "key") as [k|e]; simpl; [|discriminate].
  destruct (getattr issue "fields") as [fd|e]; simpl; [|discriminate].
  intros H. apply (fold_extract_keys fd fields [("key", k)] [] data); [|exact H].
  split; [constructor; [intros []|constructor]|split; [reflexivity|]].
  intros k'. simpl. split; [intros [H1|[]]; left; symmetry; exact H1|].
  intros [H1|[]]. left; symmetry; exact H1.
Qed.

Lemma extract_field_key (fields_data : Obj) (data data' : list (string * Obj))
    (field : string) :
  getattr_opt fields_data "key" = None ->
  getattr_opt fields_data "customfield_key" = None ->
  extract_field fields_data data field = Ok data' ->
  assoc "key" data' = if String.eqb field "key" then Some (OStr "-") else assoc "key" data.
Proof.
  intros Hk Hc. unfold extract_field.
  destruct (String.eqb_spec field "summary") as [->|_].
  { intros H; injection H as <-. rewrite assoc_dict_set. reflexivity. }
  destruct (String.eqb_spec field "status") as [->|_].
  { destruct (getattr fields_data "status"); simpl; [|discriminate].
    intros H; injection H as <-. rewrite assoc_dict_set. reflexivity. }
  destruct (String.eqb_spec field "assignee") as [->|_].
  { destruct (getattr fields_data "assignee"); simpl; [|discriminate].
    intros H; injection H as <-. rewrite assoc_dict_set. reflexivity. }
  destruct (String.eqb_spec field "key") as [->|Hne].
  - rewrite Hk. intros H; injection H as <-. rewrite assoc_dict_set. simpl.
    unfold getattr_d. change (customfield_name "key") with "customfield_key".
    rewrite Hc. reflexivity.
  - assert (E : String.eqb "key" field = false)
      by (apply String.eqb_neq; intros C; apply Hne; symmetry; exact C).
    destruct (getattr_opt fields_data field); intros H; injection H as <-;
      rewrite assoc_dict_set, E; reflexivity.
Qed.

Lemma fold_extract_key (fields_data : Obj) (fields : list string) :
  getattr_opt fields_data "key" = None ->
  getattr_opt fields_data "customfield_key" = None ->
  forall data0 data,
  fold_left (fun acc f => rbind acc (fun data => extract_field fields_data data f))
            fields (Ok data0) = Ok data ->
  assoc "key" data = if existsb (String.eqb "key") fields then Some (OStr "-")
                     else assoc "key" data0.
Proof.
  intros Hk Hc. induction fields as [|f fs IH]; intros data0 data H.
  - simpl in H. injection H as <-. reflexivity.
  - simpl in H. destruct (extract_field fields_data data0 f) as [d1|e] eqn:E.
    + pose proof (extract_field_key _ _ _ _ Hk Hc E) as Hd1.
      rewrite (IH d1 data H), Hd1. cbn [existsb].
      rewrite (String.eqb_sym "key" f).
      destruct (String.eqb f "key"); cbn [orb]; [|reflexivity].
      destruct (existsb (String.eqb "key") fs); reflexivity.
    + rewrite fold_extract_raise in H. discriminate.
Qed.

(** When the requested fields include ["key"] (as the default [--fields]
    do) and the issue's fields object has neither a [key] nor a
    [customfield_key] attribute, [extract_issue_data] overwrites the issue
    key it stored first with ["-"]. *)
Theorem extract_issue_data_key_overwritten (issue fields_data : Obj)
    (fields : list string) (data : list (string * Obj)) :
  getattr_opt issue "fields" = Some fields_data ->
  getattr_opt fields_data "key" = None ->
  getattr_opt fields_data "customfield_key" = None ->
  In "key" fields ->
  extract_issue_data issue fields = Ok data ->
  assoc "key" data = Some (OStr "-").
Proof.
  intros Hf Hk Hc Hin. unfold extract_issue_data, getattr at 2. rewrite Hf.
  destruct (getattr issue "key") as [k|e]; simpl; [|discriminate].
  intros H. rewrite (fold_extract_key fields_data fields Hk Hc _ _ H).
  assert (E : existsb (String.eqb "key") fields = true)
    by (apply existsb_exists; exists "key"; split; [exact Hin|reflexivity]).
  rewrite E. reflexivity.
Qed.

(** *** Status summary and tables of the QA commands *)

Lemma counter_add_total (eqb : Obj -> Obj -> bool) (k : Obj) (counts : list (Obj * Z)) :
  total (counter_add eqb k counts) = (total counts + 1)%Z.
Proof.
  unfold total. induction counts as [|[k' n] rest IH]; simpl; [reflexivity|].
  destruct (eqb k' k); simpl; [lia|]. rewrite IH. lia.
Qed.

Lemma counter_add_keys (eqb : Obj -> Obj -> bool) (k : Obj) (counts : list (Obj * Z)) :
  map fst (counter_add eqb k counts)
  = if existsb (fun k' => eqb k' k) (map fst counts) then map fst counts
    else app (map fst counts) [k].
Proof.
  induction counts as [|[k' n] rest IH]; [reflexivity|].
  simpl. destruct (eqb k' k); simpl; [reflexivity|].
  rewrite IH. destruct (existsb (fun k'0 => eqb k'0 k) (map fst rest)); reflexivity.
Qed.

Lemma counter_add_pos (eqb : Obj -> Obj -> bool) (k : Obj) (counts : list (Obj * Z)) :
  Forall (fun kv => (1 <= snd kv)%Z) counts ->
  Forall (fun kv => (1 <= snd kv)%Z) (counter_add eqb k counts).
Proof.
  induction counts as [|[k' n] rest IH]; intros H.
  - constructor; [simpl; lia|constructor].
  - inversion H as [|x l Hx Hr]; subst. simpl.
    destruct (eqb k' k); constructor; simpl in *; try lia; auto.
Qed.

Lemma ordpairs_snoc {A : Type} (R : A -> A -> Prop) (l : list A) (x : A) :
  ForallOrdPairs R l -> Forall (fun a => R a x) l -> ForallOrdPairs R (app l [x]).
Proof.
  induction l as [|a l IH]; intros H Hx; simpl.
  - constructor; [constructor|constructor].
  - inversion H as [|a' l' Ha Hl]; subst. inversion Hx as [|a' l' Hax Hlx]; subst.
    constructor; [apply Forall_app; split; [exact Ha|constructor; [exact Hax|constructor]]|].
    apply IH; assumption.
Qed.

Lemma counter_add_distinct (eqb : Obj -> Obj -> bool) (k : Obj) (counts : list (Obj * Z)) :
  ForallOrdPairs (fun a b => eqb a b = false) (map fst counts) ->
  ForallOrdPairs (fun a b => eqb a b = false) (map fst (counter_add eqb k counts)).
Proof.
  intros H. rewrite counter_add_keys.
  destruct (existsb (fun k' => eqb k' k) (map fst counts)) eqn:E; [exact H|].
  apply ordpairs_snoc; [exact H|].
  apply Forall_forall. intros a Ha.
  destruct (eqb a k) eqn:Eak; [|reflexivity].
  assert (existsb (fun k' => eqb k' k) (map fst counts) = true) as C
    by (apply existsb_exists; exists a; split; assumption).
  congruence.
Qed.

Lemma status_counts_fold (eqb : Obj -> Obj -> bool) (ds : list (list (string * Obj))) :
  forall acc,
  ForallOrdPairs (fun a b => eqb a b = false) (map fst acc) ->
  Forall (fun kv => (1 <= snd kv)%Z) acc ->
  let r := fold_left (fun acc issue_data =>
             counter_add eqb (get_or "status" (OStr "-") issue_data) acc) ds acc in
  total r = (total acc + Z.of_nat (List.length ds))%Z /\
  ForallOrdPairs (fun a b => eqb a b = false) (map fst r) /\
  Forall (fun kv => (1 <= snd kv)%Z) r.
Proof.
  induction ds as [|d ds IH]; intros acc Hd Hp; simpl.
  - split; [lia|split; assumption].
  - destruct (IH (counter_add eqb (get_or "status" (OStr "-") d) acc)
                 (counter_add_distinct _ _ _ Hd) (counter_add_pos _ _ _ Hp))
      as [Ht [Hd' Hp']].
    split; [rewrite Ht, counter_add_total; lia|split; assumption].
Qed.

(** The status summary of [get_project_issues] counts every extracted
    issue exactly once: its counts are positive and add up to the number of
    issues, and no two of its statuses compare equal under the dict's key
    comparison [eqb]. *)
Theorem status_counts_total_and_distinct (eqb : Obj -> Obj -> bool)
    (extracted_data : list (list (string * Obj))) :
  fold_right Z.add 0%Z (map snd (status_counts eqb extracted_data))
    = Z.of_nat (List.length extracted_data) /\
  ForallOrdPairs (fun a b => eqb a b = false) (map fst (status_counts eqb extracted_data)) /\
  Forall (fun kv => (1 <= snd kv)%Z) (status_counts eqb extracted_data).
Proof.
  destruct (status_counts_fold eqb extracted_data [] (FOP_nil _) (Forall_nil _))
    as [Ht [Hd Hp]].
  split; [exact Ht|split; assumption].
Qed.

Lemma color_headers_nth (columns : list string) :
  forall index i h, nth_error columns i = Some h ->
  nth_error (color_headers index columns) i
  = Some ("[" ++ nth (Nat.modulo (index + i) 6) colors "" ++ "]" ++ h ++ "[/]").
Proof.
  induction columns as [|c cs IH]; intros index i h H.
  - destruct i; discriminate.
  - destruct i as [|i]; simpl in H.
    + injection H as <-. simpl. rewrite Nat.add_0_r. reflexivity.
    + cbn [color_headers nth_error]. rewrite (IH (S index) i h H), Nat.add_succ_r. reflexivity.
Qed.

Lemma color_headers_length (columns : list string) (index : nat) :
  List.length (color_headers index columns) = List.length columns.
Proof.
  revert index. induction columns as [|c cs IH]; intros index; simpl; [reflexivity|].
  rewrite IH. reflexivity.
Qed.

(** [print_colored_table] prints a message for no data; otherwise one row
    per dict with one cell per column, under headers coloured in a cycle of
    six colours. *)
Theorem print_colored_table_shape {V : Type} (str_of : V -> string)
    (data : list (list (string * V))) (columns : list string) (title : string) :
  print_colored_table str_of [] columns title = PMessage "No issues to display." /\
  (data <> [] ->
   exists headers rows,
     print_colored_table str_of data columns title = PTable title headers rows /\
     List.length headers = List.length columns /\
     List.length rows = List.length data /\
     Forall (fun row => List.length row = List.length columns) rows /\
     (forall i h, nth_error columns i = Some h ->
        nth_error headers i
        = Some ("[" ++ nth (Nat.modulo i 6) colors "" ++ "]" ++ h ++ "[/]"))).
Proof.
  split; [reflexivity|]. intros Hne.
  destruct data as [|item items]; [contradiction|].
  eexists; eexists. split; [reflexivity|].
  split; [apply color_headers_length|].
  split; [rewrite length_map; reflexivity|].
  split.
  - apply Forall_forall. intros row Hrow. apply in_map_iff in Hrow.
    destruct Hrow as [it [<- _]]. rewrite length_map. reflexivity.
  - intros i h H. rewrite (color_headers_nth columns 0 i h H). reflexivity.
Qed.

Lemma map_result_length {A B : Type} (f : A -> Result B) (l : list A) (l' : list B) :
  map_result f l = Ok l' -> List.length l' = List.length l.
Proof.
  revert l'. induction l as [|x rest IH]; intros l' H; simpl in H.
  - injection H as <-. reflexivity.
  - destruct (f x) as [y|e]; simpl in H; [|discriminate].
    destruct (map_result f rest) as [ys|e]; simpl in H; [|discriminate].
    injection H as <-. simpl. rewrite (IH ys eq_refl). reflexivity.
Qed.

Lemma map_result_forall {A B : Type} (f : A -> Result B) (P : B -> Prop)
    (l : list A) (l' : list B) :
  (forall x y, f x = Ok y -> P y) -> map_result f l = Ok l' -> Forall P l'.
Proof.
  intros Hf. revert l'. induction l as [|x rest IH]; intros l' H; simpl in H.
  - injection H as <-. constructor.
  - destruct (f x) as [y|e] eqn:E; simpl in H; [|discriminate].
    destruct (map_result f rest) as [ys|e]; simpl in H; [|discriminate].
    injection H as <-. constructor; [exact (Hf x y E)|exact (IH ys eq_refl)].
Qed.

Lemma status_counts_nonempty (eqb : Obj -> Obj -> bool) (d : list (string * Obj))
    (ds : list (list (string * Obj))) :
  status_counts eqb (d :: ds) <> [].
Proof.
  intros H. destruct (status_counts_fold eqb (d :: ds) [] (FOP_nil _) (Forall_nil _))
    as [Ht _].
  unfold status_counts in H. rewrite H in Ht. cbn [total fold_right map] in Ht. change (List.length (d :: ds)) with (S (List.length ds)) in Ht. lia.
Qed.

(** [get_project_issues] prints one message when the search finds no issue;
    otherwise the issue table, followed, only when an assignee is given, by
    a two-column status summary. *)
Theorem project_issues_report_tables (eqb : Obj -> Obj -> bool) (str_of : Obj -> string)
    (project_key fields : string) (assignee : option string) (issues : list Obj)
    (outs : list Printed) :
  project_issues_report eqb str_of project_key fields assignee issues = Ok outs ->
  (issues = [] -> outs = [PMessage ("No issues found for project '" ++ project_key ++ "'.")]) /\
  (issues <> [] ->
   exists rows,
     let t := PTable ("Issues for '" ++ project_key ++ "'")
                     (color_headers 0 (field_list fields assignee)) rows in
     (opt_truthy assignee = false -> outs = [t]) /\
     (opt_truthy assignee = true ->
      exists rows',
        outs = [t; PTable ("Summary for '" ++ opt_str assignee ++ "'")
                          ["[cyan]Status[/]"; "[magenta]Count[/]"] rows'])).
Proof.
  unfold project_issues_report.
  destruct (map_result (fun issue => extract_issue_data issue (field_list fields assignee))
              issues) as [ed|e] eqn:Em; simpl; [|discriminate].
  pose proof (map_result_length _ _ _ Em) as Hlen.
  intros H. split.
  - intros ->. destruct ed; [|discriminate]. injection H as <-. reflexivity.
  - intros Hne. destruct ed as [|d ds].
    { destruct issues; [contradiction|discriminate]. }
    eexists. simpl. split.
    + intros Ha. rewrite Ha in H. injection H as <-. reflexivity.
    + intros Ha. rewrite Ha in H.
      destruct (status_counts eqb (d :: ds)) as [|c cs] eqn:Ec;
        [exfalso; exact (status_counts_nonempty eqb d ds Ec)|].
      injection H as <-. eexists. reflexivity.
Qed.

(** *** [print_table] and the commands of [salesforce_commands.py] *)

Lemma set_add_nodup (k : string) (s : list string) : NoDup s -> NoDup (set_add k s).
Proof.
  unfold set_add. destruct (existsb (String.eqb k) s) eqn:E; intros H; [exact H|].
  apply NoDup_app; [exact H|constructor; [intros []|constructor]|].
  intros x Hx [Hy|[]]. subst x.
  assert (existsb (String.eqb k) s = true) as C
    by (apply existsb_exists; exists k; split; [exact Hx|apply String.eqb_refl]).
  congruence.
Qed.

Lemma set_add_in (k x : string) (s : list string) : In x (set_add k s) <-> In x s \/ x = k.
Proof.
  unfold set_add. destruct (existsb (String.eqb k) s) eqn:E.
  - split; [tauto|]. intros [H| ->]; [exact H|].
    apply existsb_exists in E. destruct E as [y [Hy Hky]].
    apply String.eqb_eq in Hky. subst y. exact Hy.
  - rewrite in_app_iff. simpl. split; intros [H|H]; intuition.
Qed.

Lemma fold_set_add (kvs : list (string * Json)) :
  forall h, NoDup h ->
  NoDup (fold_left (fun h kv => set_add (fst kv) h) kvs h) /\
  (forall x, In x (fold_left (fun h kv => set_add (fst kv) h) kvs h)
             <-> In x h \/ In x (map fst kvs)).
Proof.
  induction kvs as [|kv rest IH]; intros h Hh; simpl.
  - split; [exact Hh|intros x; tauto].
  - destruct (IH (set_add (fst kv) h) (set_add_nodup _ _ Hh)) as [Hn Hi].
    split; [exact Hn|]. intros x. rewrite Hi, set_add_in.
    split.
    + intros [[H|H]|H]; [left; exact H|right; left; symmetry; exact H|right; right; exact H].
    + intros [H|[H|H]]; [left; left; exact H|left; right; symmetry; exact H|right; exact H].
Qed.

Lemma collect_keys_spec (orgs : list Json) :
  forall h hs, NoDup h -> collect_keys h orgs = Ok hs ->
  NoDup hs /\
  (forall k, In k hs <-> In k h \/ exists kvs, In (JObj kvs) orgs /\ In k (map fst kvs)).
Proof.
  induction orgs as [|org rest IH]; intros h hs Hh H.
  - simpl in H. injection H as <-. split; [exact Hh|].
    intros k. split; [tauto|]. intros [Hk|[kvs [[] _]]]. exact Hk.
  - destruct org as [|b|z|s|l|kvs]; simpl in H; try discriminate.
    destruct (fold_set_add kvs h Hh) as [Hn Hi].
    destruct (IH _ hs Hn H) as [Hn' Hi'].
    split; [exact Hn'|]. intros k. rewrite Hi', Hi. split.
    + intros [[Hk|Hk]|[kvs' [Hin Hk]]].
      * left; exact Hk.
      * right. exists kvs. split; [left; reflexivity|exact Hk].
      * right. exists kvs'. split; [right; exact Hin|exact Hk].
    + intros [Hk|[kvs' [[Heq|Hin] Hk]]].
      * left; left; exact Hk.
      * injection Heq as ->. left; right; exact Hk.
      * right. exists kvs'. split; assumption.
Qed.

(** Without [columns], [print_table] shows every key of every org exactly
    once, in sorted order (and it can only do so when every org is a
    dict). *)
Theorem print_table_default_columns (orgs : list Json) (headers : list string) :
  collect_keys [] orgs = Ok headers ->
  Sorted (fun a b => String.leb a b = true) (StrSort.sort headers) /\
  NoDup (StrSort.sort headers) /\
  (forall k, In k (StrSort.sort headers)
             <-> exists kvs, In (JObj kvs) orgs /\ In k (map fst kvs)) /\
  Forall (fun org => exists kvs, org = JObj kvs) orgs.
Proof.
  intros H.
  destruct (collect_keys_spec orgs [] headers (NoDup_nil _) H) as [Hn Hi].
  pose proof (StrSort.Permuted_sort headers) as Hp.
  split; [apply StrSort.Sorted_sort|].
  split; [exact (Permutation_NoDup Hp Hn)|].
  split.
  - intros k. split.
    + intros Hk. apply (Permutation_in k (Permutation_sym Hp)) in Hk.
      apply Hi in Hk. destruct Hk as [[]|Hk]. exact Hk.
    + intros Hk. apply (Permutation_in k Hp). apply Hi. right. exact Hk.
  - clear Hn Hi Hp. revert H. generalize (@nil string) as h.
    induction orgs as [|org rest IH]; intros h H; [constructor|].
    destruct org as [|b|z|s|l|kvs]; simpl in H; try discriminate.
    constructor; [eexists; reflexivity|exact (IH _ H)].
Qed.

(** [print_table] prints its message when the decoded document has no org
    under [result]; with given columns every row has one cell per column. *)
Theorem print_table_edges (data results : Json) (columns : option (list string))
    (cs : list string) (title : string) (headers : list string)
    (rows : list (list string)) :
  (py_get data "result" (JObj []) = Ok results ->
   py_get results "other" (JArr []) = Ok (JArr []) ->
   py_get results "nonScratchOrgs" (JArr []) = Ok (JArr []) ->
   print_table data columns = Ok (PMessage "No organization details found.")) /\
  (print_table data (Some cs) = Ok (PTable title headers rows) ->
   List.length headers = List.length cs /\
   Forall (fun row => List.length row = List.length cs) rows).
Proof.
  split.
  - intros H1 H2 H3. unfold print_table. rewrite H1. simpl. rewrite H2. simpl.
    rewrite H3. reflexivity.
  - unfold print_table.
    destruct (py_get data "result" (JObj [])) as [r|e]; simpl; [|discriminate].
    destruct (py_get r "other" (JArr [])) as [o|e]; simpl; [|discriminate].
    destruct (py_get r "nonScratchOrgs" (JArr [])) as [n|e]; simpl; [|discriminate].
    destruct (py_add o n) as [a|e]; simpl; [|discriminate].
    destruct (negb (py_truthy a)); [discriminate|].
    destruct (py_iter a) as [orgs|e]; simpl; [|discriminate].
    destruct (map_result _ orgs) as [rs|e] eqn:Er; simpl; [|discriminate].
    intros H. injection H as <- <- <-.
    split; [apply color_headers_length|].
    eapply map_result_forall; [|exact Er].
    intros org row Hrow. exact (map_result_length _ _ _ Hrow).
Qed.

Lemma read_result_and_warnings_state (result : Json) (st : list string) :
  snd (read_result_and_warnings result st) = st.
Proof.
  unfold read_result_and_warnings, bind, lift, ret.
  destruct (py_get result "result" JNull) as [r|e]; [|reflexivity].
  destruct (py_truthy r); [destruct (py_subscript result "result")|]; try reflexivity;
  (destruct (py_get result "warnings" JNull) as [w|e]; [|reflexivity];
   destruct (py_truthy w); [destruct (py_subscript result "warnings")|]; reflexivity).
Qed.

(** [logout] issues [sf org logout --target-org <alias> --no-prompt --json]
    with the alias as given; every exception of [_run_sf_command] escapes it
    unchanged (its [CalledProcessError] handler never runs), and a
    successful run whose document is a JSON array raises [AttributeError]. *)
Theorem logout_errors_propagate (json_loads : string -> Json + string)
    (sh : list string -> string -> Proc) (alias : string) (st : list string) :
  let line := "sf org logout --target-org " ++ alias ++ " --no-prompt --json" in
  snd (logout json_loads sh alias st) = app st [line] /\
  (forall e, decode_completed json_loads (sh st line) = Raise e ->
   fst (logout json_loads sh alias st) = Raise e) /\
  (forall l, decode_completed json_loads (sh st line) = Ok (JArr l) ->
   fst (logout json_loads sh alias st) = Raise (AttributeError "list" "get")).
Proof.
  intros line.
  assert (Hl : sf_command_line ("org logout --target-org " ++ alias ++ " --no-prompt") = line).
  { unfold sf_command_line, line. simpl. rewrite !str_app_assoc. reflexivity. }
  unfold logout, bind, _run_sf_command. rewrite Hl.
  destruct (decode_completed json_loads (sh st line)) as [doc|e] eqn:Hd.
  - split; [apply read_result_and_warnings_state|].
    split; [intros e He; discriminate|].
    intros l Hj. injection Hj as ->. reflexivity.
  - split; [reflexivity|]. split; [intros e' He'; injection He' as ->; reflexivity|].
    intros l Hj; discriminate.
Qed.


(** [org] issues [sf org list --json] and shows the three columns alias,
    username and instanceUrl with one cell each per org; an exception of
    [_run_sf_command] escapes it unchanged. *)
Theorem org_command (json_loads : string -> Json + string)
    (sh : list string -> string -> Proc) (st : list string) :
  snd (org json_loads sh st) = app st ["sf org list --json"] /\
  (forall e, decode_completed json_loads (sh st "sf org list --json") = Raise e ->
   fst (org json_loads sh st) = Raise e) /\
  (forall title headers rows, fst (org json_loads sh st) = Ok (PTable title headers rows) ->
   headers = ["[cyan]alias[/]"; "[magenta]username[/]"; "[yellow]instanceUrl[/]"] /\
   Forall (fun row => List.length row = 3) rows).
Proof.
  unfold org, bind, lift, _run_sf_command.
  change (sf_command_line "org list") with "sf org list --json".
  destruct (decode_completed json_loads (sh st "sf org list --json")) as [doc|e] eqn:Hd.
  - split; [reflexivity|]. split; [intros e He; discriminate|].
    intros title headers rows H. simpl in H.
    destruct (proj2 (print_table_edges doc doc None ["alias"; "username"; "instanceUrl"]
                       title headers rows) H) as [_ Hr].
    split; [|exact Hr].
    unfold print_table in H.
    destruct (py_get doc "result" (JObj [])) as [r|e]; simpl in H; [|discriminate].
    destruct (py_get r "other" (JArr [])) as [o|e]; simpl in H; [|discriminate].
    destruct (py_get r "nonScratchOrgs" (JArr [])) as [n|e]; simpl in H; [|discriminate].
    destruct (py_add o n) as [a|e]; simpl in H; [|discriminate].
    destruct (negb (py_truthy a)); [discriminate|].
    destruct (py_iter a) as [orgs|e]; simpl in H; [|discriminate].
    destruct (map_result _ orgs) as [rs|e]; simpl in H; [|discriminate].
    injection H as _ <- _. reflexivity.
  - split; [reflexivity|]. split; [intros e' He'; injection He' as ->; reflexivity|].
    intros title headers rows H; discriminate.
Qed.

(** *** [users list], the [sf_users_cli] runner and the [UserManager]
    methods *)

Lemma lstrip_app (x y : string) :
  lstrip (x ++ y) = if String.eqb (lstrip x) "" then lstrip y else lstrip x ++ y.
Proof.
  induction x as [|c t IH]; [reflexivity|].
  simpl. destruct (is_py_space c); [exact IH|reflexivity].
Qed.

Lemma rstrip_space_r (s : string) : rstrip (s ++ " ") = rstrip s.
Proof.
  induction s as [|c t IH]; [reflexivity|].
  simpl. rewrite IH. reflexivity.
Qed.

(** The Name cell of [users list] never starts or ends with whitespace, and
    a missing first or last name leaves just the other one, stripped. *)
Theorem display_name_strip (u : User) :
  py_strip (display_name u) = display_name u /\
  (py_truthy (first_name u) = false ->
   display_name u = py_strip (py_str (py_or (last_name u) (JStr "")))) /\
  (py_truthy (last_name u) = false ->
   display_name u = py_strip (py_str (py_or (first_name u) (JStr "")))).
Proof.
  split; [apply py_strip_idem|split].
  - intros Hf. unfold display_name, py_or at 1. rewrite Hf. reflexivity.
  - intros Hl. unfold display_name, py_or at 2. rewrite Hl. simpl py_str.
    unfold py_strip. rewrite lstrip_app.
    destruct (String.eqb (lstrip (py_str (py_or (first_name u) (JStr "")))) "") eqn:E.
    + apply String.eqb_eq in E. rewrite E. reflexivity.
    + rewrite rstrip_space_r. reflexivity.
Qed.


Lemma get_profile_id_state (json_loads : string -> Json + string)
    (sh : list string -> string -> Proc) (self : UserManager) (r : UserRole)
    (st : list string) :
  snd (_get_profile_id json_loads sh self r st)
  = app st [sf_command_line (query_command (profile_query r))].
Proof.
  unfold _get_profile_id, bind, lift, raise, _run_sf_command.
  destruct (decode_completed json_loads _) as [doc|e]; [|reflexivity].
  destruct (py_get doc "result" (JObj [])) as [res|e]; [|reflexivity].
  destruct (py_get res "records" JNull) as [recs|e]; [|reflexivity].
  destruct (negb (py_truthy recs)); [reflexivity|].
  destruct (py_index0 recs) as [f|e]; reflexivity.
Qed.

(** [create_user] issues no command when the alias slice fails, only the
    profile query when the profile lookup fails, and exactly the profile
    query followed by the create command when it succeeds. *)
Theorem create_user_commands (json_loads : string -> Json + string)
    (sh : list string -> string -> Proc) (self : UserManager) (user : User)
    (st : list string) :
  (forall e, alias_entry user = Raise e ->
   create_user json_loads sh self user st = (Raise e, st)) /\
  (forall a e st1, alias_entry user = Ok a ->
   _get_profile_id json_loads sh self (role user) st = (Raise e, st1) ->
   create_user json_loads sh self user st
   = (Raise e, app st [sf_command_line (query_command (profile_query (role user)))])) /\
  (forall u st', create_user json_loads sh self user st = (Ok u, st') ->
   exists fields,
     st' = app st [sf_command_line (query_command (profile_query (role user)));
                   sf_command_line (create_command fields)]).
Proof.
  pose proof (get_profile_id_state json_loads sh self (role user) st) as Hs.
  unfold create_user, bind, lift, ret.
  split; [|split].
  - intros e He. rewrite He. reflexivity.
  - intros a e st1 Ha Hp. rewrite Ha, Hp. rewrite Hp in Hs. simpl in Hs. subst st1.
    reflexivity.
  - destruct (alias_entry user) as [a|e]; [|discriminate].
    destruct (_get_profile_id json_loads sh self (role user) st) as [[pid|e] st1] eqn:Hp;
      [|discriminate].
    simpl in Hs. subst st1. unfold _run_sf_command.
    set (fields := keep_truthy (values_of user a pid)).
    destruct (decode_completed json_loads _) as [doc|e]; [|discriminate].
    destruct (py_subscript doc "result") as [res|e]; [|discriminate].
    destruct (py_subscript res "id") as [i|e]; [|discriminate].
    intros u st' H. injection H as _ <-. exists fields.
    rewrite <- app_assoc. reflexivity.
Qed.

Lemma records_to_users_spec (records : list Json) (us : list User) :
  records_to_users records = Ok us ->
  Forall2 (fun r u => exists kvs, r = JObj kvs /\
             id u = (match dict_lookup "Id" kvs with Some v => v | None => JNull end) /\
             is_active u = (match dict_lookup "IsActive" kvs with
                            | Some v => v | None => JBool false end) /\
             created_date u = None) records us.
Proof.
  revert us. induction records as [|r rest IH]; intros us H; simpl in H.
  - injection H as <-. constructor.
  - destruct (record_to_user r) as [u|e] eqn:Hr; simpl in H; [|discriminate].
    destruct (records_to_users rest) as [us'|e]; simpl in H; [|discriminate].
    injection H as <-. constructor; [|exact (IH us' eq_refl)].
    unfold record_to_user in Hr.
    destruct r as [|b|z|s|l|kvs]; try discriminate.
    exists kvs. split; [reflexivity|].
    revert Hr. unfold rbind at 1. simpl py_get at 1.
    destruct (dict_lookup "Profile" kvs) as [prof|]; simpl;
      [destruct (py_truthy prof); simpl;
       [destruct (dict_lookup "Profile" kvs) as [p|]; simpl;
        [destruct (py_get p "Name" JNull) as [pn|e]; simpl; [|discriminate]|]|]|];
      repeat match goal with
      | |- context [dict_lookup ?k kvs] => destruct (dict_lookup k kvs); simpl
      | |- context [_parse_role ?x] => destruct (_parse_role x); simpl
      end;
      try discriminate; intros H; injection H as <-; simpl; auto.
Qed.

(** [list_users] reads [records] as a list of dicts: [null] raises
    [TypeError]; otherwise each record gives one user, in order, with [Id]
    as its id (absent: [None]) and [IsActive] as its flag (absent: [False]). *)
Theorem list_users_records (json_loads : string -> Json + string)
    (sh : list string -> string -> Proc) (self : UserManager) (active_only : bool)
    (st : list string) (doc res : Json) :
  let line := sf_command_line (query_command (users_query active_only)) in
  decode_completed json_loads (sh st line) = Ok doc ->
  py_get doc "result" (JObj []) = Ok res ->
  (py_get res "records" (JArr []) = Ok JNull ->
   fst (list_users json_loads sh self active_only st) = Raise (TypeError "NoneType")) /\
  (forall records us, py_get res "records" (JArr []) = Ok (JArr records) ->
   fst (list_users json_loads sh self active_only st) = Ok us ->
   Forall2 (fun r u => exists kvs, r = JObj kvs /\
              id u = (match dict_lookup "Id" kvs with Some v => v | None => JNull end) /\
              is_active u = (match dict_lookup "IsActive" kvs with
                             | Some v => v | None => JBool false end) /\
              created_date u = None) records us).
Proof.
  intros line Hd Hr.
  unfold list_users, bind, lift, _run_sf_command. fold line. rewrite Hd, Hr.
  split.
  - intros Hn. rewrite Hn. reflexivity.
  - intros records us Hrec. rewrite Hrec. simpl. apply records_to_users_spec.
Qed.

(** *** Concrete runs of the further properties *)

(** [_run_command] on [sf org list --json] answering [{}] returns [{}]. *)
Lemma run_command_agrees_on_success_witness :
  fst (_run_command mini_loads (fun (_ : list string) (_ : string) => mkProc 0 "{}" "")
         (sf_command_line "org list") []) = Ok (JObj []).
Proof.
  apply (proj2 (proj2 (run_command_agrees_on_success mini_loads
                         (fun (_ : list string) (_ : string) => mkProc 0 "{}" "")
                         "org list" [] (JObj [])))).
  reflexivity.
Defined.


(** The choice [read_only] of [users create]. *)
Lemma users_role_choices_resolve_witness :
  exists r, role_by_name (str_upper "read_only") = Ok r /\ str_lower (name r) = "read_only".
Proof.
  apply users_role_choices_resolve. vm_compute. tauto.
Defined.

(** [create --role readonly] in [sf_users_cli.py]. *)
Lemma cli_readonly_choice_fails_witness :
  user_of_params (mkCreateUserParams (JStr "jdoe@example.com") (JStr "Doe") JNull JNull JNull
                    JNull JNull "readonly" JNull)
  = Raise (KeyError (JStr "READONLY")).
Proof.
  apply (proj2 (cli_readonly_choice_fails
                  (mkCreateUserParams (JStr "jdoe@example.com") (JStr "Doe") JNull JNull JNull
                     JNull JNull "readonly" JNull))).
  reflexivity.
Defined.

(** [users create --email jdoe@example.com --role admin] without
    [--username]: the alias is [jdoe@]. *)
Lemma users_create_alias_from_email_witness :
  exists user fs,
    user_of_params (mkCreateUserParams (JStr "jdoe@example.com") (JStr "Doe") JNull JNull JNull
                      JNull JNull "admin" JNull) = Ok user /\
    username user = JStr "jdoe@example.com" /\
    build_create_fields user (JStr "00e") = Ok fs /\
    filter (prefix "Alias=") fs = ["Alias=jdoe@"].
Proof.
  apply (users_create_alias_from_email
           (mkCreateUserParams (JStr "jdoe@example.com") (JStr "Doe") JNull JNull JNull
              JNull JNull "admin" JNull) "jdoe@example.com" (JStr "00e")).
  - reflexivity.
  - reflexivity.
  - discriminate.
  - vm_compute. tauto.
Defined.

(** [build_jql] with an empty sprint name, a status and an assignee. *)
Lemma build_jql_clauses_witness :
  exists pre, build_jql "CXP" (Some "") (Some "To Do") (Some "jdoe")
              = pre ++ " AND assignee = " ++ dq ++ "jdoe" ++ dq.
Proof.
  apply (proj2 (proj2 (proj2 (proj2 (build_jql_clauses "CXP" (Some "") (Some "To Do")
                                       (Some "jdoe")))))).
  discriminate.
Defined.

(** The JQL of [get_sprint_issues] for the sprint [Sprint 1]. *)
Lemma sprint_jql_vs_build_jql_witness :
  sprint_jql "CXP" "Sprint 1" (Some "Done") = build_jql "CXP" (Some "Sprint 1") (Some "Done") None.
Proof.
  apply (proj1 (sprint_jql_vs_build_jql "CXP" "Sprint 1" (Some "Done"))). discriminate.
Defined.


(** [summary] requested twice. *)
Lemma extract_issue_data_keys_witness :
  exists data,
    extract_issue_data demo_issue ["summary"; "status"; "summary"] = Ok data /\
    NoDup (map fst data).
Proof.
  eexists. split; [reflexivity|].
  exact (proj1 (extract_issue_data_keys demo_issue ["summary"; "status"; "summary"] _ eq_refl)).
Defined.

(** The default [--fields]: the issue key [CXP-1] is shown as [-]. *)
Lemma extract_issue_data_key_overwritten_witness :
  exists data,
    extract_issue_data demo_issue (field_list "key,summary,status,assignee" None) = Ok data /\
    getattr demo_issue "key" = Ok (OStr "CXP-1") /\
    assoc "key" data = Some (OStr "-").
Proof.
  eexists. split; [reflexivity|]. split; [reflexivity|].
  apply (extract_issue_data_key_overwritten demo_issue demo_fields
           (field_list "key,summary,status,assignee" None) _ eq_refl eq_refl eq_refl).
  - vm_compute. tauto.
  - reflexivity.
Defined.

(** One row under the columns [key] and [summary]. *)
Lemma print_colored_table_shape_witness :
  exists headers rows,
    print_colored_table obj_str [[("key", OStr "CXP-1")]] ["key"; "summary"] "Jira Issues"
      = PTable "Jira Issues" headers rows /\
    nth_error headers 1 = Some "[magenta]summary[/]".
Proof.
  destruct (proj2 (print_colored_table_shape obj_str [[("key", OStr "CXP-1")]]
                     ["key"; "summary"] "Jira Issues") ltac:(discriminate))
    as (headers & rows & H & _ & _ & _ & Hn).
  exists headers, rows. split; [exact H|].
  rewrite (Hn 1 "summary" eq_refl). reflexivity.
Defined.

(** One issue and the assignee [jdoe]: the issue table and the summary. *)
Lemma project_issues_report_tables_witness :
  exists outs,
    project_issues_report str_key_eqb obj_str "CXP" "key,summary" (Some "jdoe") [demo_issue]
      = Ok outs /\ List.length outs = 2.
Proof.
  eexists. split; [reflexivity|].
  destruct (proj2 (project_issues_report_tables str_key_eqb obj_str "CXP" "key,summary"
                     (Some "jdoe") [demo_issue] _ eq_refl) ltac:(discriminate)) as [rows H].
  cbv zeta in H. destruct H as [_ H]. destruct (H eq_refl) as [rows' ->]. reflexivity.
Defined.

(** Two orgs with overlapping keys. *)
Lemma print_table_default_columns_witness :
  exists headers,
    collect_keys [] [JObj [("username", JStr "a@b.com"); ("alias", JStr "dev")];
                     JObj [("alias", JStr "qa"); ("instanceUrl", JStr "https://x")]]
      = Ok headers /\
    NoDup (StrSort.sort headers) /\
    StrSort.sort headers = ["alias"; "instanceUrl"; "username"].
Proof.
  eexists. split; [reflexivity|]. split.
  - exact (proj1 (proj2 (print_table_default_columns
             [JObj [("username", JStr "a@b.com"); ("alias", JStr "dev")];
              JObj [("alias", JStr "qa"); ("instanceUrl", JStr "https://x")]] _ eq_refl))).
  - vm_compute. reflexivity.
Defined.

(** A document without [result], and one org under two columns. *)
Lemma print_table_edges_witness :
  print_table (JObj [("status", JNum 0)]) None = Ok (PMessage "No organization details found.") /\
  Forall (fun row => List.length row = 2) [["dev"; "N/A"]].
Proof.
  split.
  - apply (proj1 (print_table_edges (JObj [("status", JNum 0)]) (JObj []) None [] "" [] []));
      reflexivity.
  - apply (proj2 (print_table_edges
             (JObj [("result", JObj [("other", JArr [JObj [("alias", JStr "dev")]])])])
             (JObj []) None ["alias"; "instanceUrl"] "Salesforce Organizations"
             ["[cyan]alias[/]"; "[magenta]instanceUrl[/]"] [["dev"; "N/A"]])).
    reflexivity.
Defined.

(** [logout] when [sf] fails with an empty standard error, and when it
    prints [[]]. *)
Lemma logout_errors_propagate_witness :
  fst (logout mini_loads (failing_world "") "dev" [])
    = Raise (ClickException (JStr "Salesforce CLI command failed.")) /\
  fst (logout mini_loads (fun (_ : list string) (_ : string) => mkProc 0 "[]" "") "dev" [])
    = Raise (AttributeError "list" "get").
Proof.
  split.
  - exact (proj1 (proj2 (logout_errors_propagate mini_loads (failing_world "") "dev" []))
             _ eq_refl).
  - exact (proj2 (proj2 (logout_errors_propagate mini_loads
             (fun (_ : list string) (_ : string) => mkProc 0 "[]" "") "dev" []))
             [] eq_refl).
Defined.


(** [org] on one org without an [instanceUrl], and on a failing [sf]. *)
Lemma org_command_witness :
  fst (org mini_loads (fun (_ : list string) (_ : string) => mkProc 0 org_list_doc "") [])
    = Ok (PTable "Salesforce Organizations"
            ["[cyan]alias[/]"; "[magenta]username[/]"; "[yellow]instanceUrl[/]"]
            [["dev"; "a@b.com"; "N/A"]]) /\
  Forall (fun row => List.length row = 3) [["dev"; "a@b.com"; "N/A"]] /\
  fst (org mini_loads (failing_world "") [])
    = Raise (ClickException (JStr "Salesforce CLI command failed.")).
Proof.
  assert (H : fst (org mini_loads (fun (_ : list string) (_ : string) => mkProc 0 org_list_doc "") [])
              = Ok (PTable "Salesforce Organizations"
                      ["[cyan]alias[/]"; "[magenta]username[/]"; "[yellow]instanceUrl[/]"]
                      [["dev"; "a@b.com"; "N/A"]])) by (vm_compute; reflexivity).
  split; [exact H|split].
  - exact (proj2 (proj2 (proj2 (org_command mini_loads
             (fun (_ : list string) (_ : string) => mkProc 0 org_list_doc "") [])) _ _ _ H)).
  - exact (proj1 (proj2 (org_command mini_loads (failing_world "") [])) _ eq_refl).
Defined.

(** A user without first name and with the last name [  Doe ]. *)
Lemma display_name_strip_witness :
  display_name (new_user JNull (JStr "a@b.com") JNull (JStr "  Doe ") STANDARD) = "Doe".
Proof.
  rewrite (proj1 (proj2 (display_name_strip
             (new_user JNull (JStr "a@b.com") JNull (JStr "  Doe ") STANDARD))) eq_refl).
  vm_compute. reflexivity.
Defined.


(** [create_user] when every command fails, and when it succeeds. *)
Lemma create_user_commands_witness :
  create_user mini_loads (failing_world "") (mkUserManager "dev") demo_user []
    = (Raise (ClickException (JStr "Salesforce CLI command failed.")),
       app [] [sf_command_line (query_command (profile_query ADMIN))]) /\
  exists fields,
    snd (create_user mini_loads (demo_world profile_doc) (mkUserManager "dev") demo_user [])
    = app [] [sf_command_line (query_command (profile_query ADMIN));
              sf_command_line (create_command fields)].
Proof.
  split.
  - exact (proj1 (proj2 (create_user_commands mini_loads (failing_world "")
             (mkUserManager "dev") demo_user [])) _ _ _ eq_refl eq_refl).
  - exact (proj2 (proj2 (create_user_commands mini_loads (demo_world profile_doc)
             (mkUserManager "dev") demo_user []))
             (set_id demo_user (JStr "U1"))
             (snd (create_user mini_loads (demo_world profile_doc) (mkUserManager "dev")
                     demo_user [])) eq_refl).
Defined.

(** [list_users] when [records] is [null]. *)
Lemma list_users_records_witness :
  fst (list_users mini_loads (demo_world null_records_doc) (mkUserManager "dev") true [])
  = Raise (TypeError "NoneType").
Proof.
  exact (proj1 (list_users_records mini_loads (demo_world null_records_doc)
                  (mkUserManager "dev") true []
                  (JObj [("result", JObj [("records", JNull)])]) (JObj [("records", JNull)])
                  eq_refl eq_refl) eq_refl).
Defined.

